(** * Orders service of the print storefront: shallow embedding and properties

    The development follows [OrdersService] (orders.service.ts): the order
    creation workflow [create], the record operations [findOne], [update],
    [remove], and the error translation [handelDBException].

    [findAll] of the same service and [OffersService] (offers.service.ts)
    follow further down, in module [Offers].

    The service is written against three collaborators that are not part of
    the service itself: the user model (Mongoose), the order model (Mongoose)
    and the payment gateway client (Stripe).  They are modelled by a world
    state together with the operations the service calls on them. *)

From Stdlib Require Import ZArith String List.
From Stdlib Require Import Ascii.
From stdpp Require Import base gmap strings list infinite.

Local Open Scope string_scope.
Local Open Scope Z_scope.

(** ** JavaScript values that the service inspects *)

(** The service reads [error.code] and [error.keyValue] of a caught value of
    type [any].  Only the shapes that matter for [===] and for
    [JSON.stringify] are kept. *)
#[warnings="-register-all"]
Inductive JsValue :=
  | JUndefined
  | JNull
  | JNum (n : Z)
  | JStr (s : string)
  | JObj (fields : list (string * JsValue)).

(** [v === 11000]: strict equality with a number literal; no coercion, so the
    string ['11000'] is different from the number. *)
Definition strict_eq_num (v : JsValue) (n : Z) : bool :=
  match v with
  | JNum m => Z.eqb m n
  | _ => false
  end.

(** An error object raised by a collaborator or by the runtime. *)
Record JsError := mkJsError {
  err_name : string;
  err_message : string;
  err_code : JsValue;
  err_keyValue : JsValue
}.

(** Everything that [throw] can carry in this service: the three Nest HTTP
    exceptions the service constructs, and foreign error objects. *)
Inductive Thrown :=
  | NotFoundException (message : string)
  | BadRequestException (message : string)
  | InternalServerErrorException (message : string)
  | Foreign (e : JsError).

(** [error.code] and [error.keyValue] for a value of type [any]: the Nest
    exceptions have neither property. *)
Definition code (error : Thrown) : JsValue :=
  match error with
  | Foreign e => err_code e
  | _ => JUndefined
  end.

Definition keyValue (error : Thrown) : JsValue :=
  match error with
  | Foreign e => err_keyValue e
  | _ => JUndefined
  end.

(** The runtime error of [const { wishes } = null]. *)
Definition TypeError (message : string) : Thrown :=
  Foreign (mkJsError "TypeError" message JUndefined JUndefined).

Definition is_TypeError (t : Thrown) : bool :=
  match t with
  | Foreign e => String.eqb (err_name e) "TypeError"
  | _ => false
  end.

(** ** Data model *)

(** Modelled from the spec: the Wish schema is not among the sources; the
    fields are the ones [create] reads, with the types of the data model
    (prices and quantity are integer amounts). *)
Record Wish := mkWish {
  wish_id : string;
  material : string;
  sizePrice : Z;
  photoPrice : Z;
  amount : Z
}.

(** The user document as returned by
    [findById(user._id, 'wishes').populate('wishes')]: the wish references
    are replaced by the wish documents. *)
Record User := mkUser {
  user_id : string;
  wishes : list Wish
}.

(** [Item] (interfaces/item.interface), with the nesting of the object
    literal in [create]. *)
Record ProductData := mkProductData {
  name : string;
  description : string
}.

Record PriceData := mkPriceData {
  product_data : ProductData;
  currency : string;
  unit_amount : Z
}.

Record Item := mkItem {
  price_data : PriceData;
  quantity : Z
}.

(** Argument of [stripe.checkout.sessions.create]. *)
Record SessionCreateParams := mkSessionCreateParams {
  line_items : list Item;
  mode : string;
  success_url : string;
  cancel_url : string
}.

(** The fields of the gateway session that the service reads. *)
Record Session := mkSession {
  amount_total : Z;
  url : string
}.

(** The object literal handed to [orderModel.create]. *)
Record OrderInput := mkOrderInput {
  in_createdAt : Z;
  in_paid : Z;
  in_status : string;
  in_paymentLink : string;
  in_user : string;
  in_wishes : list string
}.

(** A stored order document: the literal plus the generated [_id]. *)
Record Order := mkOrder {
  order_id : string;
  createdAt : Z;
  paid : Z;
  status : string;
  paymentLink : string;
  user : string;
  order_wishes : list string
}.

(** Modelled from the spec: [UpdateOrderDto] is not among the sources; the
    spec describes the argument of [update] as a partial update of the order
    (for instance a status transition).  Absent fields are [None]. *)
Record UpdateOrderDto := mkUpdateOrderDto {
  patch_paid : option Z;
  patch_status : option string;
  patch_paymentLink : option string
}.

(** ** Promises and async function bodies *)

(** A promise as seen once it has settled. *)
Inductive Promise (A : Type) :=
  | Fulfilled (a : A)
  | Rejected (e : Thrown).
Arguments Fulfilled {A} a.
Arguments Rejected {A} e.

(** The world: the three collaborators' states and the service's logger. *)
Record World := mkWorld {
  users : gmap string User;
  orders : gmap string Order;
  gateway_calls : list SessionCreateParams;
  logged : list Thrown;
  clock : Z
}.

(** Completion of a piece of an async function body: a value, or a throw. *)
Inductive Completion (A : Type) :=
  | Normal (a : A)
  | Throw (e : Thrown).
Arguments Normal {A} a.
Arguments Throw {A} e.

Definition Body (A : Type) : Type := World -> World * Completion A.

Definition ret {A} (a : A) : Body A := fun w => (w, Normal a).

Definition throw {A} (e : Thrown) : Body A := fun w => (w, Throw e).

Definition bind {A B} (m : Body A) (k : A -> Body B) : Body B :=
  fun w =>
    match m w with
    | (w', Normal a) => k a w'
    | (w', Throw e) => (w', Throw e)
    end.

Declare Scope body_scope.
Delimit Scope body_scope with body.
Notation "x <- m ;; k" := (bind m (fun x => k))
  (at level 100, m at next level, right associativity) : body_scope.
Notation "m ;;; k" := (bind m (fun _ => k))
  (at level 100, right associativity) : body_scope.
Local Open Scope body_scope.

(** [try { block } catch (error) { handler(error) }]: a throw completion of
    the block runs the handler in the state the block left behind. *)
Definition try_catch {A} (block : Body A) (handler : Thrown -> Body A) : Body A :=
  fun w =>
    match block w with
    | (w', Normal a) => (w', Normal a)
    | (w', Throw e) => handler e w'
    end.

(** [await p]: the value of a fulfilled promise; a rejected promise throws
    its reason at the place of the [await]. *)
Definition await {A} (p : Body (Promise A)) : Body A :=
  fun w =>
    match p w with
    | (w', Normal (Fulfilled a)) => (w', Normal a)
    | (w', Normal (Rejected e)) => (w', Throw e)
    | (w', Throw e) => (w', Throw e)
    end.

(** An [async] function: the body completes with the returned expression.
    [return v] for a plain value fulfils the function's promise with [v];
    [return p] for a promise makes the function's promise follow [p] - after
    the body (with its [try] blocks) has already completed.  A throw
    completion of the body rejects the function's promise. *)
Definition async {A} (body : Body (Promise A)) : World -> World * Promise A :=
  fun w =>
    match body w with
    | (w', Normal p) => (w', p)
    | (w', Throw e) => (w', Rejected e)
    end.

Definition return_value {A} (a : A) : Body (Promise A) := ret (Fulfilled a).
Definition return_promise {A} (p : Promise A) : Body (Promise A) := ret p.

(** A call of a collaborator's async operation from a body: the operation
    acts on the world and hands back its promise; nothing is thrown at the
    call itself. *)
Definition call {A} (op : World -> World * Promise A) : Body (Promise A) :=
  fun w => let '(w', p) := op w in (w', Normal p).

(** ** The collaborators *)

Definition set_orders (w : World) (o : gmap string Order) : World :=
  mkWorld (users w) o (gateway_calls w) (logged w) (clock w).

Definition set_gateway_calls (w : World) (c : list SessionCreateParams) : World :=
  mkWorld (users w) (orders w) c (logged w) (clock w).

Definition set_logged (w : World) (l : list Thrown) : World :=
  mkWorld (users w) (orders w) (gateway_calls w) l (clock w).

(** [userModel.findById(id, 'wishes').populate('wishes').exec()]: resolves
    to the user document, or to [null] when no user has that id. *)
Definition userModel_findById_populate (id : string)
  : World -> World * Promise (option User) :=
  fun w => (w, Fulfilled (users w !! id)).

(** [orderModel.findById(id).exec()]. *)
Definition orderModel_findById (id : string)
  : World -> World * Promise (option Order) :=
  fun w => (w, Fulfilled (orders w !! id)).

(** The fields of a patch that are present replace the stored ones. *)
Definition apply_patch (dto : UpdateOrderDto) (o : Order) : Order :=
  mkOrder (order_id o) (createdAt o)
    (default (paid o) (patch_paid dto))
    (default (status o) (patch_status dto))
    (default (paymentLink o) (patch_paymentLink dto))
    (user o) (order_wishes o).

(** [orderModel.findByIdAndUpdate(id, dto, { new: true }).exec()]: resolves
    to the document after the update, or to [null] when there is none. *)
Definition orderModel_findByIdAndUpdate (id : string) (dto : UpdateOrderDto)
  : World -> World * Promise (option Order) :=
  fun w =>
    match orders w !! id with
    | Some o =>
        let o' := apply_patch dto o in
        (set_orders w (<[id := o']> (orders w)), Fulfilled (Some o'))
    | None => (w, Fulfilled None)
    end.

(** [orderModel.findByIdAndDelete(id).exec()]: resolves to the deleted
    document, or to [null] when there is none. *)
Definition orderModel_findByIdAndDelete (id : string)
  : World -> World * Promise (option Order) :=
  fun w =>
    match orders w !! id with
    | Some o => (set_orders w (delete id (orders w)), Fulfilled (Some o))
    | None => (w, Fulfilled None)
    end.

(** [this.logger.error(error)]. *)
Definition logger_error (error : Thrown) : Body unit :=
  fun w => (set_logged w (logged w ++ [error]), Normal tt).

(** [new Date()]. *)
Definition new_Date : Body Z := fun w => (w, Normal (clock w)).

(** [!n] for a number. *)
Definition js_not_num (n : nat) : bool := Nat.eqb n 0.

(** What the service cannot decide by itself: the answers of the payment
    gateway, the reasons an insert may be refused, and the built-in
    [JSON.stringify]. *)
Class Collaborators := {
  (** The payment gateway's answer to a session request, given the requests
      it has served so far. *)
  stripe_backend :
    list SessionCreateParams -> SessionCreateParams -> Promise Session;
  (** The Order schema (validators, unique indexes) is not among the
      sources: what makes an insert fail is a parameter.  [Some e] is the
      reason the insert is rejected with. *)
  order_insert_fault : gmap string Order -> OrderInput -> option Thrown;
  (** The text [JSON.stringify(v)] contributes to a template literal. *)
  JSON_stringify : JsValue -> string
}.

Section Service.

Context {env : Collaborators}.

(** [this.stripe.checkout.sessions.create(params)]. *)
Definition stripe_checkout_sessions_create (params : SessionCreateParams)
  : World -> World * Promise Session :=
  fun w =>
    (set_gateway_calls w (gateway_calls w ++ [params]),
     stripe_backend (gateway_calls w) params).

(** [orderModel.create(order)]: a single insert; the document gets an
    [_id] that no stored order has. *)
Definition orderModel_create (order : OrderInput)
  : World -> World * Promise Order :=
  fun w =>
    match order_insert_fault (orders w) order with
    | Some e => (w, Rejected e)
    | None =>
        let id := fresh (dom (orders w)) in
        let doc := mkOrder id (in_createdAt order) (in_paid order)
                     (in_status order) (in_paymentLink order)
                     (in_user order) (in_wishes order) in
        (set_orders w (<[id := doc]> (orders w)), Fulfilled doc)
    end.

(** ** The service *)

Definition handelDBException {A} (error : Thrown) : Body A :=
  if strict_eq_num (code error) 11000 then
    throw (BadRequestException
             ("Order already exists, " ++ JSON_stringify (keyValue error)))
  else
    logger_error error ;;;
    throw (InternalServerErrorException "Unexpected error, check server logs").

(** The arrow function of [wishes.map] that builds a line item. *)
Definition item_of_wish (wish : Wish) : Item :=
  {| price_data :=
       {| product_data :=
            {| name := material wish;
               description := "Print on " ++ material wish |};
          currency := "usd";
          unit_amount := sizePrice wish + photoPrice wish |};
     quantity := amount wish |}.

Definition build_items (wishes : list Wish) : list Item :=
  map item_of_wish wishes.

Definition session_params (items : list Item) : SessionCreateParams :=
  {| line_items := items;
     mode := "payment";
     success_url := "https://paloverdeprint.netlify.app";
     cancel_url := "https://paloverdeprint.netlify.app" |}.

Definition create (user : User) : World -> World * Promise Order :=
  async (
    found <- await (call (userModel_findById_populate (user_id user))) ;;
    match found with
    | None =>
        throw (TypeError "Cannot destructure property 'wishes' of null")
    | Some doc =>
        let wishes := wishes doc in
        if js_not_num (length wishes) || Nat.eqb (length wishes) 0 then
          throw (NotFoundException "No wishes found")
        else
          let items := build_items wishes in
          try_catch (
            session <- await (call (stripe_checkout_sessions_create
                                      (session_params items))) ;;
            now <- new_Date ;;
            let order :=
              {| in_createdAt := now;
                 in_paid := amount_total session;
                 in_status := "Pending";
                 in_paymentLink := url session;
                 in_user := user_id user;
                 in_wishes := map wish_id wishes |} in
            p <- call (orderModel_create order) ;;
            return_promise p)
          (fun error => handelDBException error)
    end).

Definition findOne (id : string) : World -> World * Promise Order :=
  async (
    order <- await (call (orderModel_findById id)) ;;
    match order with
    | None => throw (NotFoundException ("Order with id: '" ++ id ++ "' not found"))
    | Some order => return_value order
    end).

Definition update (id : string) (updateOrderDto : UpdateOrderDto)
  : World -> World * Promise Order :=
  async (
    order <- await (call (orderModel_findByIdAndUpdate id updateOrderDto)) ;;
    match order with
    | None => throw (NotFoundException ("Order with id: '" ++ id ++ "' not found"))
    | Some order => return_value order
    end).

Definition remove (id : string) : World -> World * Promise string :=
  async (
    order <- await (call (orderModel_findByIdAndDelete id)) ;;
    match order with
    | None => throw (NotFoundException ("Order with id: '" ++ id ++ "' not found"))
    | Some _ => return_value ("Order with the id: '" ++ id ++ "' was removed")
    end).

(** ** Names for the intermediate values of [create] *)

(** The order literal built inside the [try] block. *)
Definition order_literal (w : World) (user : User) (doc : User) (session : Session)
  : OrderInput :=
  {| in_createdAt := clock w;
     in_paid := amount_total session;
     in_status := "Pending";
     in_paymentLink := url session;
     in_user := user_id user;
     in_wishes := map wish_id (wishes doc) |}.

(** The stored document the insert makes of a literal. *)
Definition order_document (w : World) (order : OrderInput) : Order :=
  mkOrder (fresh (dom (orders w))) (in_createdAt order) (in_paid order)
    (in_status order) (in_paymentLink order) (in_user order) (in_wishes order).

(** The request [create] sends for a fetched user document. *)
Definition request_for (doc : User) : SessionCreateParams :=
  session_params (build_items (wishes doc)).

(** The world after the gateway has been asked for a session. *)
Definition after_gateway (w : World) (doc : User) : World :=
  set_gateway_calls w (gateway_calls w ++ [request_for doc]).

End Service.

(** ** Sample collaborators and worlds *)

Module Sample.

Definition canvas : Wish := mkWish "w1" "Canvas" 1000 500 2.
Definition poster : Wish := mkWish "w2" "Paper" 300 200 1.

Definition alice : User := mkUser "u1" [canvas; poster].
Definition bob : User := mkUser "u2" [].
Definition carol : User := mkUser "u3" [canvas].

Definition first_order : Order :=
  mkOrder "o1" 7 3000 "Paid" "https://pay/session/old" "u1" ["w1"].

(** Alice and Bob are registered; Carol is not. *)
Definition world : World :=
  mkWorld {[ "u1" := alice; "u2" := bob ]} {[ "o1" := first_order ]} [] [] 42.

(** The total a gateway computes over the line items. *)
Definition total (items : list Item) : Z :=
  fold_right (fun it acc => unit_amount (price_data it) * quantity it + acc) 0 items.

Definition gateway_ok (served : list SessionCreateParams) (p : SessionCreateParams)
  : Promise Session :=
  Fulfilled (mkSession (total (line_items p)) "https://pay/session/abc").

Definition gateway_error : Thrown :=
  Foreign (mkJsError "StripeConnectionError" "connect ECONNREFUSED"
             (JStr "ECONNREFUSED") JUndefined).

Definition gateway_down (served : list SessionCreateParams) (p : SessionCreateParams)
  : Promise Session :=
  Rejected gateway_error.

(** A flat rendering, enough for the samples. *)
Definition stringify (v : JsValue) : string :=
  match v with
  | JObj [(k, JStr s)] => "{" ++ k ++ ":" ++ s ++ "}"
  | _ => "undefined"
  end.

(** The error the database driver raises on a unique index conflict. *)
Definition duplicate_key (order : OrderInput) : Thrown :=
  Foreign (mkJsError "MongoServerError" "E11000 duplicate key error collection"
             (JNum 11000) (JObj [("paymentLink", JStr (in_paymentLink order))])).

Definition healthy : Collaborators :=
  {| stripe_backend := gateway_ok;
     order_insert_fault := fun _ _ => None;
     JSON_stringify := stringify |}.

Definition gateway_failing : Collaborators :=
  {| stripe_backend := gateway_down;
     order_insert_fault := fun _ _ => None;
     JSON_stringify := stringify |}.

Definition conflicting : Collaborators :=
  {| stripe_backend := gateway_ok;
     order_insert_fault := fun _ order => Some (duplicate_key order);
     JSON_stringify := stringify |}.

Definition mark_pending : UpdateOrderDto := mkUpdateOrderDto None (Some "Pending") None.

End Sample.

(** ** Listing orders *)

(** [PaginationDto] (common/dto/pagination.dto) is not among the sources:
    the fields are the ones the two services destructure, as the
    non-negative integers a validated query carries; an absent field is
    [None]. *)
Record PaginationDto := mkPaginationDto {
  dto_limit : option nat;
  dto_offset : option nat;
  dto_page : option nat
}.

(** The window a query with [.limit(limit)] and [.skip(skip)] selects from
    the matching documents: the database skips first, whatever the order of
    the two calls in the chain, and a limit of 0 means no limit. *)
Definition query_window {A} (limit skip : nat) (docs : list A) : list A :=
  let rest := drop skip docs in
  if Nat.eqb limit 0 then rest else take limit rest.

(** The documents [orderModel.find()] matches, in the store's order. *)
Definition stored_orders (w : World) : list Order :=
  (map_to_list (orders w)).*2.

(** [orderModel.find().limit(limit).skip(offset).exec()]. *)
Definition orderModel_find_limit_skip (limit offset : nat)
  : World -> World * Promise (list Order) :=
  fun w => (w, Fulfilled (query_window limit offset (stored_orders w))).

Definition findAll (paginationDto : PaginationDto)
  : World -> World * Promise (list Order) :=
  async (
    let limit := default 10%nat (dto_limit paginationDto) in
    let offset := default 0%nat (dto_offset paginationDto) in
    p <- call (orderModel_find_limit_skip limit offset) ;;
    return_promise p).

(** ** Strings and numbers of the offers service *)

(** [s.split(sep)] for a one-character separator: the pieces between the
    separators, in order; there is always at least one piece. *)
Fixpoint split (sep : Ascii.ascii) (s : string) : list string :=
  match s with
  | EmptyString => [EmptyString]
  | String c rest =>
      if Ascii.eqb c sep then EmptyString :: split sep rest
      else
        match split sep rest with
        | piece :: pieces => String c piece :: pieces
        | [] => [String c EmptyString]
        end
  end.

(** Whether a character occurs in a string. *)
Fixpoint occurs (c : Ascii.ascii) (s : string) : bool :=
  match s with
  | EmptyString => false
  | String d rest => Ascii.eqb d c || occurs c rest
  end.

(** [image.split('/').pop().split('.')[0]]; [None] stands for the
    [undefined] that [pop()] or [[0]] give on an empty array. *)
Definition publicId_of (image : string) : option string :=
  match last (split "/"%char image) with
  | Some piece => head (split "."%char piece)
  | None => None
  end.

(** A JavaScript number that is an integer, or one of the two values a
    division by zero gives. *)
Inductive JsNumber :=
  | Finite (z : Z)
  | Infinity
  | NaN.

(** [Math.ceil(total / limit)] for two counts (the quotient of counts below
    2^53 is rounded up to the same integer as the exact quotient). *)
Definition Math_ceil_div (total limit : nat) : JsNumber :=
  if Nat.eqb limit 0 then
    if Nat.eqb total 0 then NaN else Infinity
  else if Nat.eqb (total mod limit) 0 then Finite (Z.of_nat (total / limit))
  else Finite (Z.of_nat (total / limit) + 1).

(** [Promise.all([p, q])] once both have settled. *)
Definition Promise_all {A B} (p : Promise A) (q : Promise B) : Promise (A * B) :=
  match p, q with
  | Fulfilled a, Fulfilled b => Fulfilled (a, b)
  | Rejected e, _ => Rejected e
  | _, Rejected e => Rejected e
  end.

(** ** The offers service *)

Module Offers.

(** The Offer schema is not among the sources: the fields are the ones the
    service reads or writes; [prices] holds values of type [any]. *)
Record Offer := mkOffer {
  offer_id : string;
  image : string;
  isActive : bool;
  prices : list JsValue
}.

(** [Express.Multer.File]: the service only hands it to the upload. *)
Definition File : Type := string.

(** [CreateOfferDto] is not among the sources: the service assigns its
    [image]; the other properties travel along untouched. *)
Record CreateOfferDto := mkCreateOfferDto {
  dto_image : option string;
  dto_properties : list (string * JsValue)
}.

Definition set_image (dto : CreateOfferDto) (secure_url : string) : CreateOfferDto :=
  mkCreateOfferDto (Some secure_url) (dto_properties dto).

(** [UpdateOfferDto] is not among the sources: an object of properties. *)
Definition UpdateOfferDto : Type := list (string * JsValue).

(** The answer of [findAll]. *)
Record Page := mkPage {
  data : list Offer;
  totalPages : JsNumber
}.

(** The state the offers service works on: the offer store, the calls made
    to the image host, and the service's logger. *)
Record Catalog := mkCatalog {
  offers : gmap string Offer;
  upload_calls : list File;
  delete_calls : list string;
  logged : list Thrown
}.

Definition set_offers (c : Catalog) (o : gmap string Offer) : Catalog :=
  mkCatalog o (upload_calls c) (delete_calls c) (logged c).

Definition set_upload_calls (c : Catalog) (u : list File) : Catalog :=
  mkCatalog (offers c) u (delete_calls c) (logged c).

Definition set_delete_calls (c : Catalog) (d : list string) : Catalog :=
  mkCatalog (offers c) (upload_calls c) d (logged c).

Definition set_logged (c : Catalog) (l : list Thrown) : Catalog :=
  mkCatalog (offers c) (upload_calls c) (delete_calls c) l.

(** What the service cannot decide by itself. *)
Class Collaborators := {
  (** The text [JSON.stringify(v)] contributes to a template literal. *)
  JSON_stringify : JsValue -> string;
  (** [secure_url] of an upload, or the reason it is rejected with. *)
  upload_result : list File -> File -> Promise string;
  (** The reason a deletion at the image host is rejected with, if any. *)
  delete_fault : list string -> string -> option Thrown;
  (** The document the schema makes of a DTO, for a given [_id]. *)
  offer_document : string -> CreateOfferDto -> Offer;
  (** The reason an insert, respectively a save, is rejected with. *)
  offer_insert_fault : gmap string Offer -> CreateOfferDto -> option Thrown;
  offer_save_fault : gmap string Offer -> Offer -> option Thrown;
  (** The document after the properties of a patch have been set. *)
  offer_patch : UpdateOfferDto -> Offer -> Offer;
  (** The error of a query whose [skip] is negative. *)
  negative_skip_error : Z -> Thrown
}.

(** Async function bodies over the catalog, as for the orders service. *)
Definition Body (A : Type) : Type := Catalog -> Catalog * Completion A.

Definition ret {A} (a : A) : Body A := fun c => (c, Normal a).

Definition throw {A} (e : Thrown) : Body A := fun c => (c, Throw e).

Definition bind {A B} (m : Body A) (k : A -> Body B) : Body B :=
  fun c =>
    match m c with
    | (c', Normal a) => k a c'
    | (c', Throw e) => (c', Throw e)
    end.

Declare Scope offers_scope.
Delimit Scope offers_scope with offers.
Notation "x <~ m ;; k" := (bind m (fun x => k))
  (at level 100, m at next level, right associativity) : offers_scope.
Notation "m ;;~ k" := (bind m (fun _ => k))
  (at level 100, right associativity) : offers_scope.
Local Open Scope offers_scope.

Definition try_catch {A} (block : Body A) (handler : Thrown -> Body A) : Body A :=
  fun c =>
    match block c with
    | (c', Normal a) => (c', Normal a)
    | (c', Throw e) => handler e c'
    end.

Definition await {A} (p : Body (Promise A)) : Body A :=
  fun c =>
    match p c with
    | (c', Normal (Fulfilled a)) => (c', Normal a)
    | (c', Normal (Rejected e)) => (c', Throw e)
    | (c', Throw e) => (c', Throw e)
    end.

Definition async {A} (body : Body (Promise A)) : Catalog -> Catalog * Promise A :=
  fun c =>
    match body c with
    | (c', Normal p) => (c', p)
    | (c', Throw e) => (c', Rejected e)
    end.

Definition return_value {A} (a : A) : Body (Promise A) := ret (Fulfilled a).
Definition return_promise {A} (p : Promise A) : Body (Promise A) := ret p.

Definition call {A} (op : Catalog -> Catalog * Promise A) : Body (Promise A) :=
  fun c => let '(c', p) := op c in (c', Normal p).

(** [this.logger.error(error)]. *)
Definition logger_error (error : Thrown) : Body unit :=
  fun c => (set_logged c (logged c ++ [error]), Normal tt).

(** The documents a [find] matches: all of them, or the active ones for the
    filter [{ isActive: true }]. *)
Definition stored_offers (c : Catalog) : list Offer :=
  (map_to_list (offers c)).*2.

Definition matching (active_only : bool) (c : Catalog) : list Offer :=
  if active_only then filter (fun o => isActive o = true) (stored_offers c)
  else stored_offers c.

Section Service.

Context {env : Collaborators}.

(** [this.cloudinaryService.uploadFile(file)], resolving to [secure_url]. *)
Definition cloudinary_uploadFile (file : File) : Catalog -> Catalog * Promise string :=
  fun c =>
    (set_upload_calls c (upload_calls c ++ [file]),
     upload_result (upload_calls c) file).

(** [this.cloudinaryService.deleteFile(publicId)]. *)
Definition cloudinary_deleteFile (publicId : string) : Catalog -> Catalog * Promise unit :=
  fun c =>
    (set_delete_calls c (delete_calls c ++ [publicId]),
     match delete_fault (delete_calls c) publicId with
     | Some e => Rejected e
     | None => Fulfilled tt
     end).

(** [offerModel.create(dto)]. *)
Definition offerModel_create (dto : CreateOfferDto) : Catalog -> Catalog * Promise Offer :=
  fun c =>
    match offer_insert_fault (offers c) dto with
    | Some e => (c, Rejected e)
    | None =>
        let id := fresh (dom (offers c)) in
        let doc := offer_document id dto in
        (set_offers c (<[id := doc]> (offers c)), Fulfilled doc)
    end.

(** [offerModel.findById(id).exec()]. *)
Definition offerModel_findById (id : string) : Catalog -> Catalog * Promise (option Offer) :=
  fun c => (c, Fulfilled (offers c !! id)).

(** [offerModel.find(filter).skip(skip).limit(limit).exec()]. *)
Definition offerModel_find (active_only : bool) (skip : Z) (limit : nat)
  : Catalog -> Catalog * Promise (list Offer) :=
  fun c =>
    if Z.ltb skip 0 then (c, Rejected (negative_skip_error skip))
    else (c, Fulfilled (query_window limit (Z.to_nat skip) (matching active_only c))).

(** [offerModel.countDocuments(filter)]. *)
Definition offerModel_countDocuments (active_only : bool)
  : Catalog -> Catalog * Promise nat :=
  fun c => (c, Fulfilled (length (matching active_only c))).

(** [offerModel.findByIdAndUpdate(id, dto, { new: true }).exec()]. *)
Definition offerModel_findByIdAndUpdate (id : string) (dto : UpdateOfferDto)
  : Catalog -> Catalog * Promise (option Offer) :=
  fun c =>
    match offers c !! id with
    | Some o =>
        let o' := offer_patch dto o in
        (set_offers c (<[id := o']> (offers c)), Fulfilled (Some o'))
    | None => (c, Fulfilled None)
    end.

(** [offerModel.findByIdAndDelete(id).exec()]. *)
Definition offerModel_findByIdAndDelete (id : string)
  : Catalog -> Catalog * Promise (option Offer) :=
  fun c =>
    match offers c !! id with
    | Some o => (set_offers c (delete id (offers c)), Fulfilled (Some o))
    | None => (c, Fulfilled None)
    end.

(** [offer.save()] for the document found under [id]. *)
Definition document_save (id : string) (offer : Offer) : Catalog -> Catalog * Promise Offer :=
  fun c =>
    match offer_save_fault (offers c) offer with
    | Some e => (c, Rejected e)
    | None => (set_offers c (<[id := offer]> (offers c)), Fulfilled offer)
    end.

(** [offer.prices.push(price)]. *)
Definition push_price (offer : Offer) (price : JsValue) : Offer :=
  mkOffer (offer_id offer) (image offer) (isActive offer) (prices offer ++ [price]).

Definition handelDBException {A} (error : Thrown) : Body A :=
  if strict_eq_num (code error) 11000 then
    throw (BadRequestException
             ("Offer already exists, " ++ JSON_stringify (keyValue error)))
  else
    logger_error error ;;~
    throw (InternalServerErrorException "Unexpected error, check server logs").

Definition create (createOfferDto : CreateOfferDto) (file : option File)
  : Catalog -> Catalog * Promise Offer :=
  async (
    try_catch (
      createOfferDto <~
        match file with
        | Some file =>
            secure_url <~ await (call (cloudinary_uploadFile file)) ;;
            ret (set_image createOfferDto secure_url)
        | None => ret createOfferDto
        end ;;
      p <~ call (offerModel_create createOfferDto) ;;
      return_promise p)
    (fun error => handelDBException error)).

Definition findAll (paginationDto : PaginationDto) (isClient : bool)
  : Catalog -> Catalog * Promise Page :=
  async (
    let limit := default 10%nat (dto_limit paginationDto) in
    let page := default 1%nat (dto_page paginationDto) in
    let skip := (Z.of_nat page - 1) * Z.of_nat limit in
    found <~ call (offerModel_find isClient skip limit) ;;
    counted <~ call (offerModel_countDocuments isClient) ;;
    both <~ await (ret (Promise_all found counted)) ;;
    let '(offers, total) := both in
    return_value {| data := offers; totalPages := Math_ceil_div total limit |}).

Definition findOne (id : string) (isClient : bool) : Catalog -> Catalog * Promise Offer :=
  async (
    offer <~ await (call (offerModel_findById id)) ;;
    match offer with
    | None => throw (NotFoundException ("Offer with id: '" ++ id ++ "' not found"))
    | Some offer =>
        if isClient && negb (isActive offer) then
          throw (BadRequestException ("Offer with id: '" ++ id ++ "' is not active"))
        else return_value offer
    end).

Definition update (id : string) (updateOfferDto : UpdateOfferDto)
  : Catalog -> Catalog * Promise Offer :=
  async (
    offer <~ await (call (offerModel_findByIdAndUpdate id updateOfferDto)) ;;
    match offer with
    | None => throw (NotFoundException ("Offer with id: '" ++ id ++ "' not found"))
    | Some offer => return_value offer
    end).

Definition remove (id : string) : Catalog -> Catalog * Promise string :=
  async (
    offer <~ await (call (findOne id true)) ;;
    (if negb (String.eqb (image offer) "No_image") then
       match publicId_of (image offer) with
       | Some publicId => await (call (cloudinary_deleteFile publicId))
       | None => throw (TypeError "Cannot read properties of undefined")
       end
     else ret tt) ;;~
    _ <~ await (call (offerModel_findByIdAndDelete id)) ;;
    return_value ("Offer with the id: '" ++ id ++ "' was removed")).

Definition addPrice (id : string) (price : JsValue) : Catalog -> Catalog * Promise Offer :=
  async (
    offer <~ await (call (offerModel_findById id)) ;;
    match offer with
    | None => throw (NotFoundException ("Offer with id: '" ++ id ++ "' not found"))
    | Some offer =>
        let offer := push_price offer price in
        p <~ call (document_save id offer) ;;
        return_promise p
    end).

End Service.

End Offers.

(** ** A sample catalog *)

Module OffersSample.

Definition mug : Offers.Offer :=
  Offers.mkOffer "f1" "https://img.host/demo/upload/v1/mug.png" true [].

Definition retired : Offers.Offer :=
  Offers.mkOffer "f2" "https://img.host/demo/upload/v1/old.jpg" false [JNum 900].

Definition plain : Offers.Offer := Offers.mkOffer "f3" "No_image" true [].

Definition catalog : Offers.Catalog :=
  Offers.mkCatalog {[ "f1" := mug; "f2" := retired; "f3" := plain ]} [] [] [].

Definition host_error : Thrown :=
  Foreign (mkJsError "Error" "image host unreachable" (JNum 499) JUndefined).

Definition document (id : string) (dto : Offers.CreateOfferDto) : Offers.Offer :=
  Offers.mkOffer id (default "No_image" (Offers.dto_image dto)) true [].

Definition services : Offers.Collaborators :=
  {| Offers.JSON_stringify := Sample.stringify;
     Offers.upload_result := fun _ file => Fulfilled ("https://img.host/up/" ++ file);
     Offers.delete_fault := fun _ _ => None;
     Offers.offer_document := document;
     Offers.offer_insert_fault := fun _ _ => None;
     Offers.offer_save_fault := fun _ _ => None;
     Offers.offer_patch := fun _ o => o;
     Offers.negative_skip_error := fun _ => host_error |}.

Definition host_down : Offers.Collaborators :=
  {| Offers.JSON_stringify := Sample.stringify;
     Offers.upload_result := fun _ _ => Rejected host_error;
     Offers.delete_fault := fun _ _ => Some host_error;
     Offers.offer_document := document;
     Offers.offer_insert_fault := fun _ _ => None;
     Offers.offer_save_fault := fun _ _ => None;
     Offers.offer_patch := fun _ o => o;
     Offers.negative_skip_error := fun _ => host_error |}.

Definition blank : Offers.CreateOfferDto := Offers.mkCreateOfferDto None [].

End OffersSample.

(** ** How [create] runs, case by case *)

Ltac run_create :=
  unfold create, async, bind, await, call, try_catch, return_promise, ret,
    throw, new_Date, userModel_findById_populate,
    stripe_checkout_sessions_create, orderModel_create; simpl.

Section CreateCases.

Context {env : Collaborators}.

Lemma nonempty_guard (ws : list Wish) :
  ws ≠ [] -> js_not_num (length ws) || Nat.eqb (length ws) 0 = false.
Proof. destruct ws as [|x xs]; [congruence | reflexivity]. Qed.

Lemma empty_or_not (ws : list Wish) : ws = [] \/ ws ≠ [].
Proof. destruct ws; [left; reflexivity | right; discriminate]. Qed.

Lemma create_no_user (user : User) (w : World) :
  users w !! user_id user = None ->
  create user w =
    (w, Rejected (TypeError "Cannot destructure property 'wishes' of null")).
Proof. intros Hu. run_create. rewrite Hu. reflexivity. Qed.

Lemma create_no_wishes (user doc : User) (w : World) :
  users w !! user_id user = Some doc ->
  wishes doc = [] ->
  create user w = (w, Rejected (NotFoundException "No wishes found")).
Proof. intros Hu Hw. run_create. rewrite Hu, Hw. reflexivity. Qed.

(** A rejected gateway call is caught and handed to the translation. *)
Lemma create_gateway_rejected (user doc : User) (w : World) (e : Thrown) :
  users w !! user_id user = Some doc ->
  wishes doc ≠ [] ->
  stripe_backend (gateway_calls w) (request_for doc) = Rejected e ->
  create user w = async (handelDBException e) (after_gateway w doc).
Proof.
  intros Hu Hw Hg. unfold request_for in Hg. run_create.
  rewrite Hu, (nonempty_guard _ Hw), Hg. reflexivity.
Qed.

(** A rejected insert is the returned promise itself: the [try] block has
    completed normally by then, and the reason reaches the caller as is. *)
Lemma create_insert_rejected (user doc : User) (w : World) (s : Session) (e : Thrown) :
  users w !! user_id user = Some doc ->
  wishes doc ≠ [] ->
  stripe_backend (gateway_calls w) (request_for doc) = Fulfilled s ->
  order_insert_fault (orders w) (order_literal w user doc s) = Some e ->
  create user w = (after_gateway w doc, Rejected e).
Proof.
  intros Hu Hw Hg Hf. unfold request_for in Hg. run_create.
  rewrite Hu, (nonempty_guard _ Hw), Hg.
  unfold order_literal in Hf. simpl. rewrite Hf. reflexivity.
Qed.

Lemma create_inserted (user doc : User) (w : World) (s : Session) :
  users w !! user_id user = Some doc ->
  wishes doc ≠ [] ->
  stripe_backend (gateway_calls w) (request_for doc) = Fulfilled s ->
  order_insert_fault (orders w) (order_literal w user doc s) = None ->
  create user w =
    (set_orders (after_gateway w doc)
       (<[order_id (order_document w (order_literal w user doc s))
          := order_document w (order_literal w user doc s)]> (orders w)),
     Fulfilled (order_document w (order_literal w user doc s))).
Proof.
  intros Hu Hw Hg Hf. unfold request_for in Hg. run_create.
  rewrite Hu, (nonempty_guard _ Hw), Hg.
  unfold order_literal in Hf. simpl. rewrite Hf. reflexivity.
Qed.

(** The translation always rejects, and touches neither the order store
    nor the gateway. *)
Lemma handelDBException_rejects (A : Type) (e : Thrown) (w : World) :
  exists w' t,
    async (@handelDBException env (Promise A) e) w = (w', Rejected t)
    /\ orders w' = orders w /\ gateway_calls w' = gateway_calls w.
Proof.
  unfold async, handelDBException.
  destruct (strict_eq_num (code e) 11000); simpl; eauto 6.
Qed.

(** The policy on a uniqueness violation. *)
Lemma handelDBException_duplicate_key (A : Type) (e : Thrown) (w : World) :
  code e = JNum 11000 ->
  @handelDBException env A e w =
    (w, Throw (BadRequestException
                 ("Order already exists, " ++ JSON_stringify (keyValue e)))).
Proof. intros Hc. unfold handelDBException. rewrite Hc. reflexivity. Qed.

(** The policy on anything else: one log entry, one fixed message. *)
Lemma handelDBException_other (A : Type) (e : Thrown) (w : World) :
  code e ≠ JNum 11000 ->
  @handelDBException env A e w =
    (set_logged w (logged w ++ [e]),
     Throw (InternalServerErrorException "Unexpected error, check server logs")).
Proof.
  intros Hc. unfold handelDBException.
  destruct (code e) as [| |n|s|fs] eqn:Hcode; try reflexivity.
  simpl. destruct (Z.eqb_spec n 11000) as [->|Hn]; [congruence | reflexivity].
Qed.

(** A fulfilled [create] went through the fetch, the gateway and the
    insert, in this order. *)
Lemma create_fulfilled_inv (user : User) (w w' : World) (o : Order) :
  create user w = (w', Fulfilled o) ->
  exists doc s,
    users w !! user_id user = Some doc
    /\ wishes doc ≠ []
    /\ stripe_backend (gateway_calls w) (request_for doc) = Fulfilled s
    /\ order_insert_fault (orders w) (order_literal w user doc s) = None
    /\ o = order_document w (order_literal w user doc s)
    /\ w' = set_orders (after_gateway w doc) (<[order_id o := o]> (orders w)).
Proof.
  intros H.
  destruct (users w !! user_id user) as [doc|] eqn:Hu.
  2:{ rewrite (create_no_user _ _ Hu) in H. discriminate. }
  destruct (empty_or_not (wishes doc)) as [Hw|Hne].
  { rewrite (create_no_wishes _ _ _ Hu Hw) in H. discriminate. }
  destruct (stripe_backend (gateway_calls w) (request_for doc)) as [s|e] eqn:Hg.
  2:{ rewrite (create_gateway_rejected _ _ _ _ Hu Hne Hg) in H.
      destruct (handelDBException_rejects Order e (after_gateway w doc))
        as (w1 & t & Ht & _). rewrite Ht in H. discriminate. }
  destruct (order_insert_fault (orders w) (order_literal w user doc s))
    as [e|] eqn:Hf.
  { rewrite (create_insert_rejected _ _ _ _ _ Hu Hne Hg Hf) in H. discriminate. }
  rewrite (create_inserted _ _ _ _ Hu Hne Hg Hf) in H. injection H as Hw' Ho.
  exists doc, s. subst o w'. repeat split; assumption.
Qed.

Lemma fresh_order_id (w : World) (order : OrderInput) :
  orders w !! order_id (order_document w order) = None.
Proof. simpl. apply not_elem_of_dom. apply is_fresh. Qed.

(** Once the wish list is known to be non-empty the gateway is asked
    exactly once, whatever happens afterwards. *)
Lemma create_asks_gateway_once (user doc : User) (w : World) :
  users w !! user_id user = Some doc ->
  wishes doc ≠ [] ->
  gateway_calls (fst (create user w)) = (gateway_calls w ++ [request_for doc])%list.
Proof.
  intros Hu Hne.
  destruct (stripe_backend (gateway_calls w) (request_for doc)) as [s|e] eqn:Hg.
  - destruct (order_insert_fault (orders w) (order_literal w user doc s))
      as [e|] eqn:Hf.
    + rewrite (create_insert_rejected _ _ _ _ _ Hu Hne Hg Hf). reflexivity.
    + rewrite (create_inserted _ _ _ _ Hu Hne Hg Hf). reflexivity.
  - rewrite (create_gateway_rejected _ _ _ _ Hu Hne Hg).
    destruct (handelDBException_rejects Order e (after_gateway w doc))
      as (w1 & t & Ht & _ & Hc). rewrite Ht. simpl. rewrite Hc. reflexivity.
Qed.

Lemma build_items_lookup (ws : list Wish) (i : nat) :
  build_items ws !! i = item_of_wish <$> ws !! i.
Proof. unfold build_items. apply list_lookup_fmap. Qed.

End CreateCases.

(** ** Properties of the order creation workflow *)

Section CreateProperties.

Context {env : Collaborators}.

(** C1.  For a user whose (fetched) wish list is empty, [create] fails with
    [NotFoundException] carrying the message 'No wishes found'; the world
    is left as it was, so the gateway has not been called and nothing has
    been written to the order store. *)
Theorem create_empty_wishes_not_found (user doc : User) (w : World) :
  users w !! user_id user = Some doc ->
  wishes doc = [] ->
  create user w = (w, Rejected (NotFoundException "No wishes found"))
  /\ gateway_calls (fst (create user w)) = gateway_calls w
  /\ orders (fst (create user w)) = orders w.
Proof.
  intros Hu Hw. rewrite (create_no_wishes _ _ _ Hu Hw). auto.
Qed.

(** C2.  For a non-empty wish list, the line items [create] submits to the
    gateway are as many as the wishes, and the i-th line item is made of
    the i-th wish: unit amount [sizePrice + photoPrice], quantity the
    wish's [amount], product name the wish's [material] and description
    'Print on ' followed by the material. *)
Theorem create_line_items_follow_wishes (user doc : User) (w : World) :
  users w !! user_id user = Some doc ->
  wishes doc ≠ [] ->
  exists params,
    gateway_calls (fst (create user w)) = (gateway_calls w ++ [params])%list
    /\ length (line_items params) = length (wishes doc)
    /\ forall (i : nat) (wish : Wish),
         wishes doc !! i = Some wish ->
         exists item,
           line_items params !! i = Some item
           /\ unit_amount (price_data item) = sizePrice wish + photoPrice wish
           /\ quantity item = amount wish
           /\ name (product_data (price_data item)) = material wish
           /\ description (product_data (price_data item))
              = "Print on " ++ material wish.
Proof.
  intros Hu Hne. exists (request_for doc). split; [|split].
  - apply (create_asks_gateway_once _ _ _ Hu Hne).
  - simpl. unfold build_items. apply length_map.
  - intros i wish Hi. exists (item_of_wish wish). simpl.
    rewrite build_items_lookup, Hi. repeat split.
Qed.

(** C3.  After a successful [create] the stored order lists exactly the ids
    of the fetched wishes, position by position. *)
Theorem create_persists_wish_ids (user : User) (w w' : World) (o : Order) :
  create user w = (w', Fulfilled o) ->
  exists doc,
    users w !! user_id user = Some doc
    /\ orders w !! order_id o = None
    /\ orders w' !! order_id o = Some o
    /\ order_wishes o = map wish_id (wishes doc)
    /\ length (order_wishes o) = length (wishes doc)
    /\ forall i : nat, order_wishes o !! i = wish_id <$> wishes doc !! i.
Proof.
  intros H. destruct (create_fulfilled_inv _ _ _ _ H)
    as (doc & s & Hu & Hne & Hg & Hf & Ho & Hw').
  exists doc. split; [exact Hu|]. split; [|split; [|split; [|split]]].
  - rewrite Ho. apply fresh_order_id.
  - rewrite Hw'. simpl. apply lookup_insert_eq.
  - rewrite Ho. reflexivity.
  - rewrite Ho. simpl. apply length_map.
  - intros i. rewrite Ho. simpl. apply list_lookup_fmap.
Qed.

(** C4.  After a successful [create] the stored order has [paid] equal to
    the amount total of the session the gateway answered with,
    [paymentLink] equal to that session's url, [status] 'Pending' and
    [user] the caller's id. *)
Theorem create_persists_payment_fields (caller : User) (w w' : World) (o : Order) :
  create caller w = (w', Fulfilled o) ->
  exists doc session,
    users w !! user_id caller = Some doc
    /\ stripe_backend (gateway_calls w) (request_for doc) = Fulfilled session
    /\ orders w' !! order_id o = Some o
    /\ paid o = amount_total session
    /\ paymentLink o = url session
    /\ status o = "Pending"
    /\ user o = user_id caller.
Proof.
  intros H. destruct (create_fulfilled_inv _ _ _ _ H)
    as (doc & s & Hu & Hne & Hg & Hf & Ho & Hw').
  exists doc, s. split; [exact Hu|]. split; [exact Hg|]. split.
  - rewrite Hw'. simpl. apply lookup_insert_eq.
  - rewrite Ho. repeat split.
Qed.


(** C9.  When no user document has the caller's id, [create] is rejected
    with the runtime's TypeError for destructuring [null]: not with one of
    the service's HTTP exceptions (so neither the NotFound of the empty
    wish list nor an outcome of the error translation), and nothing is
    logged, called or written. *)
Theorem create_missing_user_type_error (user : User) (w : World) :
  users w !! user_id user = None ->
  exists t,
    create user w = (w, Rejected t)
    /\ is_TypeError t = true
    /\ (forall m, t ≠ NotFoundException m)
    /\ (forall m, t ≠ BadRequestException m)
    /\ (forall m, t ≠ InternalServerErrorException m)
    /\ logged (fst (create user w)) = logged w.
Proof.
  intros Hu. rewrite (create_no_user _ _ Hu).
  eexists. split; [reflexivity|]. repeat split; intros m; discriminate.
Qed.

(** C10.  Whatever the user and the world, every line item of every
    request [create] adds to the gateway's calls has currency 'usd'; the
    line item of any wish has it. *)
Theorem create_currency_is_usd (user : User) (w : World) :
  (forall wish : Wish, currency (price_data (item_of_wish wish)) = "usd")
  /\ exists added,
       gateway_calls (fst (create user w)) = (gateway_calls w ++ added)%list
       /\ Forall (fun params =>
                    Forall (fun item => currency (price_data item) = "usd")
                      (line_items params)) added.
Proof.
  split; [reflexivity|].
  destruct (users w !! user_id user) as [doc|] eqn:Hu.
  2:{ exists []. rewrite (create_no_user _ _ Hu). simpl.
      rewrite app_nil_r. split; [reflexivity | constructor]. }
  destruct (empty_or_not (wishes doc)) as [Hw|Hne].
  { exists []. rewrite (create_no_wishes _ _ _ Hu Hw). simpl.
    rewrite app_nil_r. split; [reflexivity | constructor]. }
  exists [request_for doc]. split.
  - apply (create_asks_gateway_once _ _ _ Hu Hne).
  - constructor; [|constructor]. simpl. unfold build_items.
    apply Forall_map. apply Forall_forall. intros x _. reflexivity.
Qed.

End CreateProperties.

(** ** Properties of the record operations *)

Section RecordOperations.

(** C7.  [update] on a stored id answers with the patched document and
    stores it under the same id, leaving the other orders alone.  The patched
    document keeps the order's id, creation date, user and wishes; its
    status, paid amount and payment link are those of the patch where the
    patch has them and the stored ones otherwise.  No status is refused: any
    status in the patch becomes the order's status, whatever the status was.
    On an id that is not stored [update] is rejected with
    [NotFoundException] and changes nothing. *)
Theorem update_patches_or_not_found (id : string) (dto : UpdateOrderDto) (w : World) :
  match orders w !! id with
  | Some o =>
      exists w',
        update id dto w = (w', Fulfilled (apply_patch dto o))
        /\ orders w' !! id = Some (apply_patch dto o)
        /\ (forall j : string, j ≠ id -> orders w' !! j = orders w !! j)
        /\ status (apply_patch dto o) = default (status o) (patch_status dto)
        /\ paid (apply_patch dto o) = default (paid o) (patch_paid dto)
        /\ paymentLink (apply_patch dto o)
           = default (paymentLink o) (patch_paymentLink dto)
        /\ order_id (apply_patch dto o) = order_id o
        /\ createdAt (apply_patch dto o) = createdAt o
        /\ user (apply_patch dto o) = user o
        /\ order_wishes (apply_patch dto o) = order_wishes o
        /\ (forall s : string,
              patch_status dto = Some s -> status (apply_patch dto o) = s)
  | None =>
      update id dto w =
        (w, Rejected (NotFoundException ("Order with id: '" ++ id ++ "' not found")))
  end.
Proof.
  unfold update, async, bind, await, call, orderModel_findByIdAndUpdate.
  destruct (orders w !! id) as [o|] eqn:Ho; simpl; [|reflexivity].
  eexists. split; [reflexivity|]. simpl. split; [apply lookup_insert_eq|].
  split; [intros j Hj; apply lookup_insert_ne; congruence|].
  repeat split. intros s Hs. rewrite Hs. reflexivity.
Qed.

(** C8.  [remove] on a stored id deletes that order (and only that one) and
    answers with the confirmation message; on an id that is not stored it
    is rejected with [NotFoundException] and changes nothing. *)
Theorem remove_deletes_or_not_found (id : string) (w : World) :
  match orders w !! id with
  | Some o =>
      exists w',
        remove id w =
          (w', Fulfilled ("Order with the id: '" ++ id ++ "' was removed"))
        /\ orders w' !! id = None
        /\ (forall j : string, j ≠ id -> orders w' !! j = orders w !! j)
  | None =>
      remove id w =
        (w, Rejected (NotFoundException ("Order with id: '" ++ id ++ "' not found")))
  end.
Proof.
  unfold remove, async, bind, await, call, orderModel_findByIdAndDelete.
  destruct (orders w !! id) as [o|] eqn:Ho; simpl; [|reflexivity].
  eexists. split; [reflexivity|]. simpl. split; [apply lookup_delete_eq|].
  intros j Hj. apply lookup_delete_ne. congruence.
Qed.

(** A status can be moved back: a paid order is made pending again. *)
Example update_regresses_status :
  exists w',
    update "o1" Sample.mark_pending Sample.world
    = (w', Fulfilled (mkOrder "o1" 7 3000 "Pending" "https://pay/session/old"
                        "u1" ["w1"])).
Proof. eexists. vm_compute. reflexivity. Qed.

Example update_unknown_id :
  update "o9" Sample.mark_pending Sample.world
  = (Sample.world, Rejected (NotFoundException "Order with id: 'o9' not found")).
Proof. vm_compute. reflexivity. Qed.

Example remove_known_id :
  snd (remove "o1" Sample.world) = Fulfilled "Order with the id: 'o1' was removed"
  /\ orders (fst (remove "o1" Sample.world)) = ∅.
Proof. split; vm_compute; reflexivity. Qed.

End RecordOperations.

(** ** Error translation inside [create] *)

Section ErrorTranslation.

Context {env : Collaborators}.

(** A gateway failure is logged and surfaces as the generic internal
    error, provided its [code] is not the number 11000. *)
Lemma create_gateway_error_translated (user doc : User) (w : World) (e : Thrown) :
  users w !! user_id user = Some doc ->
  wishes doc ≠ [] ->
  stripe_backend (gateway_calls w) (request_for doc) = Rejected e ->
  code e ≠ JNum 11000 ->
  create user w =
    (set_logged (after_gateway w doc) (logged w ++ [e]),
     Rejected (InternalServerErrorException "Unexpected error, check server logs")).
Proof.
  intros Hu Hne Hg Hc. rewrite (create_gateway_rejected _ _ _ _ Hu Hne Hg).
  unfold async. rewrite (handelDBException_other _ _ _ Hc). reflexivity.
Qed.

(** The translation is keyed on [code] alone: a gateway failure that
    carries the number 11000 is reported as a conflict. *)
Lemma create_gateway_error_11000 (user doc : User) (w : World) (e : Thrown) :
  users w !! user_id user = Some doc ->
  wishes doc ≠ [] ->
  stripe_backend (gateway_calls w) (request_for doc) = Rejected e ->
  code e = JNum 11000 ->
  create user w =
    (after_gateway w doc,
     Rejected (BadRequestException
                 ("Order already exists, " ++ JSON_stringify (keyValue e)))).
Proof.
  intros Hu Hne Hg Hc. rewrite (create_gateway_rejected _ _ _ _ Hu Hne Hg).
  unfold async. rewrite (handelDBException_duplicate_key _ _ _ Hc). reflexivity.
Qed.

(** The caller-visible message of the generic error is one fixed text. *)
Lemma internal_error_message_fixed (A : Type) (e1 e2 : Thrown) (w1 w2 : World) :
  code e1 ≠ JNum 11000 -> code e2 ≠ JNum 11000 ->
  snd (@handelDBException env A e1 w1) = snd (@handelDBException env A e2 w2).
Proof.
  intros H1 H2.
  rewrite (handelDBException_other _ _ _ H1), (handelDBException_other _ _ _ H2).
  reflexivity.
Qed.

End ErrorTranslation.

(** ** The workflow on the sample world *)

(** C5, at the persistence step.  The gateway answers, the insert is refused
    with a duplicate-key error (code 11000): [create] is rejected with the
    driver's error itself.  It is not the [BadRequestException] of the
    translation policy, nothing is logged, and the gateway has served a
    session for which no order is stored. *)
Theorem create_duplicate_key_escapes_translation :
  let outcome := create (env := Sample.conflicting) Sample.alice Sample.world in
  let raw :=
    Sample.duplicate_key
      (order_literal Sample.world Sample.alice Sample.alice
         (mkSession 3500 "https://pay/session/abc")) in
  snd outcome = Rejected raw
  /\ code raw = JNum 11000
  /\ snd outcome
     ≠ Rejected (BadRequestException
                   ("Order already exists, "
                    ++ JSON_stringify (Collaborators := Sample.conflicting)
                         (keyValue raw)))
  /\ logged (fst outcome) = []
  /\ gateway_calls (fst outcome) = [request_for Sample.alice]
  /\ orders (fst outcome) = orders Sample.world.
Proof.
  simpl. repeat split; try (vm_compute; reflexivity). discriminate.
Qed.

(** The same failure at the gateway step is translated. *)
Example create_gateway_down_translated :
  create (env := Sample.gateway_failing) Sample.alice Sample.world
  = (mkWorld (users Sample.world) (orders Sample.world)
       [request_for Sample.alice] [Sample.gateway_error] 42,
     Rejected (InternalServerErrorException "Unexpected error, check server logs")).
Proof. vm_compute. reflexivity. Qed.

(** The scenario of one canvas wish: one line item of 1500 times 2, a session
    of 3000, a pending order carrying the session's link. *)
Example create_canvas_scenario :
  let w := mkWorld {[ "u3" := Sample.carol ]} ∅ [] [] 0 in
  snd (create (env := Sample.healthy) Sample.carol w)
  = Fulfilled (mkOrder "0" 0 3000 "Pending" "https://pay/session/abc" "u3" ["w1"])
  /\ map (fun it => (unit_amount (price_data it), quantity it))
       (build_items (wishes Sample.carol)) = [(1500, 2)].
Proof. split; vm_compute; reflexivity. Qed.

Lemma create_empty_wishes_not_found_witness :
  users Sample.world !! user_id Sample.bob = Some Sample.bob
  /\ wishes Sample.bob = []
  /\ create (env := Sample.healthy) Sample.bob Sample.world
     = (Sample.world, Rejected (NotFoundException "No wishes found")).
Proof.
  split; [vm_compute; reflexivity|]. split; [reflexivity|].
  apply (create_empty_wishes_not_found (env := Sample.healthy)
           Sample.bob Sample.bob Sample.world);
    [vm_compute; reflexivity | reflexivity].
Defined.

Lemma create_line_items_follow_wishes_witness :
  exists params,
    gateway_calls (fst (create (env := Sample.healthy) Sample.alice Sample.world))
    = (gateway_calls Sample.world ++ [params])%list
    /\ length (line_items params) = length (wishes Sample.alice).
Proof.
  destruct (create_line_items_follow_wishes (env := Sample.healthy)
              Sample.alice Sample.alice Sample.world)
    as (params & Hc & Hl & _);
    [vm_compute; reflexivity | discriminate |].
  exists params. split; assumption.
Defined.

Lemma create_persists_wish_ids_witness :
  exists o,
    snd (create (env := Sample.healthy) Sample.alice Sample.world) = Fulfilled o
    /\ order_wishes o = ["w1"; "w2"].
Proof.
  pose (o := mkOrder "0" 42 3500 "Pending" "https://pay/session/abc" "u1" ["w1"; "w2"]).
  destruct (create_persists_wish_ids (env := Sample.healthy) Sample.alice
              Sample.world
              (fst (create (env := Sample.healthy) Sample.alice Sample.world)) o)
    as (doc & Hu & _ & _ & Hw & _);
    [vm_compute; reflexivity |].
  exists o. split; [vm_compute; reflexivity | reflexivity].
Defined.

Lemma create_persists_payment_fields_witness :
  exists o,
    snd (create (env := Sample.healthy) Sample.alice Sample.world) = Fulfilled o
    /\ paid o = 3500 /\ status o = "Pending".
Proof.
  pose (o := mkOrder "0" 42 3500 "Pending" "https://pay/session/abc" "u1" ["w1"; "w2"]).
  destruct (create_persists_payment_fields (env := Sample.healthy) Sample.alice
              Sample.world
              (fst (create (env := Sample.healthy) Sample.alice Sample.world)) o)
    as (doc & s & _ & _ & _ & _ & _ & Hs & _);
    [vm_compute; reflexivity |].
  exists o. split; [vm_compute; reflexivity |]. split; [reflexivity | exact Hs].
Defined.


Lemma create_missing_user_type_error_witness :
  users Sample.world !! user_id Sample.carol = None
  /\ exists t,
       create (env := Sample.healthy) Sample.carol Sample.world
       = (Sample.world, Rejected t)
       /\ is_TypeError t = true.
Proof.
  split; [vm_compute; reflexivity|].
  destruct (create_missing_user_type_error (env := Sample.healthy)
              Sample.carol Sample.world)
    as (t & Hc & Ht & _); [vm_compute; reflexivity|].
  exists t. split; assumption.
Defined.

(** ** Further properties of the order operations *)

Section OrderStore.

Context {env : Collaborators}.

(** What [create] does to the order store, in every case: nothing, or one
    insert under an id that was free. *)
Lemma create_orders_cases (user : User) (w : World) :
  orders (fst (create user w)) = orders w
  \/ exists o, snd (create user w) = Fulfilled o
               /\ orders w !! order_id o = None
               /\ orders (fst (create user w)) = <[order_id o := o]> (orders w).
Proof.
  destruct (users w !! user_id user) as [doc|] eqn:Hu.
  2:{ left. rewrite (create_no_user _ _ Hu). reflexivity. }
  destruct (empty_or_not (wishes doc)) as [Hw|Hne].
  { left. rewrite (create_no_wishes _ _ _ Hu Hw). reflexivity. }
  destruct (stripe_backend (gateway_calls w) (request_for doc)) as [s|e] eqn:Hg.
  2:{ left. rewrite (create_gateway_rejected _ _ _ _ Hu Hne Hg).
      destruct (handelDBException_rejects Order e (after_gateway w doc))
        as (w1 & t & Ht & Ho & _). rewrite Ht. simpl. rewrite Ho. reflexivity. }
  destruct (order_insert_fault (orders w) (order_literal w user doc s))
    as [e|] eqn:Hf.
  { left. rewrite (create_insert_rejected _ _ _ _ _ Hu Hne Hg Hf). reflexivity. }
  right. rewrite (create_inserted _ _ _ _ Hu Hne Hg Hf).
  eexists. split; [reflexivity|]. split; [apply fresh_order_id | reflexivity].
Qed.

Lemma findOne_stored (id : string) (w : World) (o : Order) :
  orders w !! id = Some o -> findOne id w = (w, Fulfilled o).
Proof.
  intros H. unfold findOne, async, bind, await, call, orderModel_findById.
  simpl. rewrite H. reflexivity.
Qed.

Lemma findOne_missing (id : string) (w : World) :
  orders w !! id = None ->
  findOne id w =
    (w, Rejected (NotFoundException ("Order with id: '" ++ id ++ "' not found"))).
Proof.
  intros H. unfold findOne, async, bind, await, call, orderModel_findById.
  simpl. rewrite H. reflexivity.
Qed.

Lemma update_stored (id : string) (dto : UpdateOrderDto) (w : World) (o : Order) :
  orders w !! id = Some o ->
  update id dto w =
    (set_orders w (<[id := apply_patch dto o]> (orders w)),
     Fulfilled (apply_patch dto o)).
Proof.
  intros H. unfold update, async, bind, await, call, orderModel_findByIdAndUpdate.
  rewrite H. reflexivity.
Qed.

Lemma update_missing (id : string) (dto : UpdateOrderDto) (w : World) :
  orders w !! id = None ->
  update id dto w =
    (w, Rejected (NotFoundException ("Order with id: '" ++ id ++ "' not found"))).
Proof.
  intros H. unfold update, async, bind, await, call, orderModel_findByIdAndUpdate.
  rewrite H. reflexivity.
Qed.

Lemma remove_stored (id : string) (w : World) (o : Order) :
  orders w !! id = Some o ->
  remove id w =
    (set_orders w (delete id (orders w)),
     Fulfilled ("Order with the id: '" ++ id ++ "' was removed")).
Proof.
  intros H. unfold remove, async, bind, await, call, orderModel_findByIdAndDelete.
  rewrite H. reflexivity.
Qed.

Lemma remove_missing (id : string) (w : World) :
  orders w !! id = None ->
  remove id w =
    (w, Rejected (NotFoundException ("Order with id: '" ++ id ++ "' not found"))).
Proof.
  intros H. unfold remove, async, bind, await, call, orderModel_findByIdAndDelete.
  rewrite H. reflexivity.
Qed.

Lemma apply_patch_twice (dto : UpdateOrderDto) (o : Order) :
  apply_patch dto (apply_patch dto o) = apply_patch dto o.
Proof.
  destruct dto as [[p|] [s|] [l|]]; reflexivity.
Qed.

(** X1.  [findOne] on a stored id fulfils with the stored document; on any
    other id it is rejected with [NotFoundException] naming the id.  Either
    way the world is left as it was. *)
Theorem findOne_found_or_not_found (id : string) (w : World) :
  match orders w !! id with
  | Some o => findOne id w = (w, Fulfilled o)
  | None =>
      findOne id w =
        (w, Rejected (NotFoundException ("Order with id: '" ++ id ++ "' not found")))
  end.
Proof.
  destruct (orders w !! id) as [o|] eqn:H.
  - apply (findOne_stored _ _ _ H).
  - apply (findOne_missing _ _ H).
Qed.

(** X2.  An order answered by a successful [create] can be read back:
    [findOne] on its id fulfils with that very order. *)
Theorem create_then_findOne (user : User) (w w' : World) (o : Order) :
  create user w = (w', Fulfilled o) ->
  findOne (order_id o) w' = (w', Fulfilled o).
Proof.
  intros H. destruct (create_fulfilled_inv _ _ _ _ H)
    as (doc & s & _ & _ & _ & _ & _ & Hw').
  apply findOne_stored. rewrite Hw'. simpl. apply lookup_insert_eq.
Qed.

(** X3.  [create] never touches the orders that are already stored: whatever
    its outcome, every order stored before is stored unchanged afterwards. *)
Theorem create_keeps_stored_orders (user : User) (w : World) (id : string) (o : Order) :
  orders w !! id = Some o ->
  orders (fst (create user w)) !! id = Some o.
Proof.
  intros H. destruct (create_orders_cases user w) as [Hc|(o' & _ & Hfree & Hc)];
    rewrite Hc; [exact H|].
  rewrite lookup_insert_ne; [exact H|]. intros E. rewrite E in Hfree. congruence.
Qed.

(** X4.  [create] only reads the user store: whatever its outcome, the users
    and their wish lists are the same afterwards, so the wishes of an order
    stay on the user's list. *)
Theorem create_leaves_users (user : User) (w : World) :
  users (fst (create user w)) = users w.
Proof.
  destruct (users w !! user_id user) as [doc|] eqn:Hu.
  2:{ rewrite (create_no_user _ _ Hu). reflexivity. }
  destruct (empty_or_not (wishes doc)) as [Hw|Hne].
  { rewrite (create_no_wishes _ _ _ Hu Hw). reflexivity. }
  destruct (stripe_backend (gateway_calls w) (request_for doc)) as [s|e] eqn:Hg.
  2:{ rewrite (create_gateway_rejected _ _ _ _ Hu Hne Hg).
      unfold async, handelDBException.
      destruct (strict_eq_num (code e) 11000); reflexivity. }
  destruct (order_insert_fault (orders w) (order_literal w user doc s))
    as [e|] eqn:Hf.
  - rewrite (create_insert_rejected _ _ _ _ _ Hu Hne Hg Hf). reflexivity.
  - rewrite (create_inserted _ _ _ _ Hu Hne Hg Hf). reflexivity.
Qed.

(** X5.  A rejected [create] has stored nothing: the order store is the one
    from before the call. *)
Theorem create_rejected_stores_nothing (user : User) (w : World) (t : Thrown) :
  snd (create user w) = Rejected t ->
  orders (fst (create user w)) = orders w.
Proof.
  intros H. destruct (create_orders_cases user w) as [Hc|(o & Ho & _)];
    [exact Hc|]. rewrite Ho in H. discriminate.
Qed.

(** X6.  [create] writes to the log only when the gateway refused the
    session with an error whose code is not 11000: then exactly that error
    is appended, and the caller gets the generic internal error. *)
Theorem create_logs_only_gateway_failures (user : User) (w : World) :
  logged (fst (create user w)) ≠ logged w ->
  exists doc e,
    users w !! user_id user = Some doc
    /\ stripe_backend (gateway_calls w) (request_for doc) = Rejected e
    /\ code e ≠ JNum 11000
    /\ logged (fst (create user w)) = (logged w ++ [e])%list
    /\ snd (create user w)
       = Rejected (InternalServerErrorException "Unexpected error, check server logs").
Proof.
  intros Hlog.
  destruct (users w !! user_id user) as [doc|] eqn:Hu.
  2:{ rewrite (create_no_user _ _ Hu) in Hlog. contradiction Hlog. reflexivity. }
  destruct (empty_or_not (wishes doc)) as [Hw|Hne].
  { rewrite (create_no_wishes _ _ _ Hu Hw) in Hlog. contradiction Hlog. reflexivity. }
  destruct (stripe_backend (gateway_calls w) (request_for doc)) as [s|e] eqn:Hg.
  - destruct (order_insert_fault (orders w) (order_literal w user doc s))
      as [e|] eqn:Hf.
    + rewrite (create_insert_rejected _ _ _ _ _ Hu Hne Hg Hf) in Hlog.
      contradiction Hlog. reflexivity.
    + rewrite (create_inserted _ _ _ _ Hu Hne Hg Hf) in Hlog.
      contradiction Hlog. reflexivity.
  - assert (Hcode : code e = JNum 11000 \/ code e ≠ JNum 11000).
    { destruct (code e) as [| |n|x|fs]; try (right; discriminate).
      destruct (Z.eq_dec n 11000) as [->|Hn]; [left; reflexivity|].
      right. intros E. injection E as E. contradiction. }
    destruct Hcode as [Hc|Hc].
    + rewrite (create_gateway_rejected _ _ _ _ Hu Hne Hg) in Hlog.
      unfold async in Hlog.
      rewrite (handelDBException_duplicate_key _ _ _ Hc) in Hlog.
      contradiction Hlog. reflexivity.
    + exists doc, e. rewrite (create_gateway_rejected _ _ _ _ Hu Hne Hg).
      unfold async. rewrite (handelDBException_other _ _ _ Hc).
      repeat split; assumption.
Qed.

End OrderStore.

Section OrderRecords.

(** X7.  A successful [update] can be read back: [findOne] on the same id
    then fulfils with the patched document. *)
Theorem update_then_findOne (id : string) (dto : UpdateOrderDto) (w : World) (o : Order) :
  orders w !! id = Some o ->
  findOne id (fst (update id dto w))
  = (fst (update id dto w), Fulfilled (apply_patch dto o)).
Proof.
  intros H. rewrite (update_stored _ dto _ _ H). simpl.
  apply findOne_stored. simpl. apply lookup_insert_eq.
Qed.

(** X8.  After [remove], whatever its outcome, the id is gone: [findOne] and
    a second [remove] on it are both rejected with [NotFoundException]. *)
Theorem remove_then_not_found (id : string) (w : World) :
  snd (findOne id (fst (remove id w)))
  = Rejected (NotFoundException ("Order with id: '" ++ id ++ "' not found"))
  /\ snd (remove id (fst (remove id w)))
     = Rejected (NotFoundException ("Order with id: '" ++ id ++ "' not found")).
Proof.
  assert (Hgone : orders (fst (remove id w)) !! id = None).
  { destruct (orders w !! id) as [o|] eqn:H.
    - rewrite (remove_stored _ _ _ H). simpl. apply lookup_delete_eq.
    - rewrite (remove_missing _ _ H). exact H. }
  rewrite (findOne_missing _ _ Hgone), (remove_missing _ _ Hgone). auto.
Qed.

(** X9.  Repeating an [update] changes nothing more: the second call with
    the same id and patch answers like the first and leaves the store the
    first call produced. *)
Theorem update_twice_same (id : string) (dto : UpdateOrderDto) (w : World) :
  update id dto (fst (update id dto w))
  = (fst (update id dto w), snd (update id dto w)).
Proof.
  destruct (orders w !! id) as [o|] eqn:H.
  - rewrite (update_stored _ dto _ _ H). simpl.
    assert (Hl : orders (set_orders w (<[id := apply_patch dto o]> (orders w))) !! id
                 = Some (apply_patch dto o)) by (simpl; apply lookup_insert_eq).
    rewrite (update_stored _ dto _ _ Hl). simpl.
    rewrite apply_patch_twice, insert_insert_eq. reflexivity.
  - rewrite (update_missing _ dto _ H). simpl. apply (update_missing _ dto _ H).
Qed.

(** X10.  [update] and [remove] never create an order: an id that is not
    stored is still not stored after either of them. *)
Theorem update_remove_never_create (id j : string) (dto : UpdateOrderDto) (w : World) :
  orders w !! j = None ->
  orders (fst (update id dto w)) !! j = None
  /\ orders (fst (remove id w)) !! j = None.
Proof.
  intros Hj. split.
  - destruct (orders w !! id) as [o|] eqn:H.
    + rewrite (update_stored _ dto _ _ H). simpl.
      rewrite lookup_insert_ne; [exact Hj|]. intros E. subst j. congruence.
    + rewrite (update_missing _ dto _ H). exact Hj.
  - destruct (orders w !! id) as [o|] eqn:H.
    + rewrite (remove_stored _ _ _ H). simpl.
      destruct (decide (id = j)) as [->|Hne];
        [apply lookup_delete_eq | rewrite lookup_delete_ne; assumption].
    + rewrite (remove_missing _ _ H). exact Hj.
Qed.

End OrderRecords.

(** ** Listing orders *)

Section Windows.

Context {A : Type}.

Lemma query_window_subseteq (limit skip : nat) (docs : list A) :
  query_window limit skip docs ⊆ docs.
Proof.
  unfold query_window. destruct (Nat.eqb limit 0).
  - apply subseteq_drop.
  - etransitivity; [apply subseteq_take | apply subseteq_drop].
Qed.

Lemma query_window_length (limit skip : nat) (docs : list A) :
  limit ≠ 0%nat -> (length (query_window limit skip docs) <= limit)%nat.
Proof.
  intros Hl. unfold query_window.
  destruct (Nat.eqb_spec limit 0) as [E|_]; [contradiction|].
  rewrite length_take. apply Nat.le_min_l.
Qed.

Lemma query_window_next (limit skip : nat) (docs : list A) :
  limit ≠ 0%nat ->
  (query_window limit skip docs ++ query_window limit (skip + limit) docs)%list
  = query_window (limit + limit) skip docs.
Proof.
  intros Hl. unfold query_window.
  destruct (Nat.eqb_spec limit 0) as [E|_]; [contradiction|].
  destruct (Nat.eqb_spec (limit + limit) 0) as [E|_]; [lia|].
  rewrite <- (drop_drop docs limit skip). apply take_take_drop.
Qed.

Lemma query_window_past_end (limit skip : nat) (docs : list A) :
  (length docs <= skip)%nat -> query_window limit skip docs = [].
Proof.
  intros H. unfold query_window. rewrite (drop_ge _ _ H).
  destruct (Nat.eqb limit 0); [reflexivity | apply take_nil].
Qed.

Lemma query_window_all (limit : nat) (docs : list A) :
  (length docs <= limit)%nat -> query_window limit 0 docs = docs.
Proof.
  intros H. unfold query_window. rewrite drop_0.
  destruct (Nat.eqb limit 0); [reflexivity | apply take_ge; exact H].
Qed.

End Windows.

Section OrderListing.

Lemma elem_of_stored_orders (o : Order) (w : World) :
  o ∈ stored_orders w <-> exists k, orders w !! k = Some o.
Proof.
  unfold stored_orders. rewrite list_elem_of_fmap. split.
  - intros ([k o'] & -> & Hin). exists k. apply elem_of_map_to_list. exact Hin.
  - intros (k & Hk). exists (k, o). split; [reflexivity|].
    apply elem_of_map_to_list. exact Hk.
Qed.

Lemma length_stored_orders (w : World) :
  length (stored_orders w) = size (orders w).
Proof. unfold stored_orders. rewrite length_fmap. apply length_map_to_list. Qed.

Lemma findAll_runs (dto : PaginationDto) (w : World) :
  findAll dto w =
    (w, Fulfilled (query_window (default 10%nat (dto_limit dto))
                     (default 0%nat (dto_offset dto)) (stored_orders w))).
Proof. reflexivity. Qed.

(** X11.  [findAll] always fulfils and leaves the world alone; every order
    of the page is a stored order, and the page has at most [limit] orders -
    at most 10 when the query names no limit - unless the limit is 0. *)
Theorem findAll_page_bounded (dto : PaginationDto) (w : World) :
  exists page,
    findAll dto w = (w, Fulfilled page)
    /\ (forall o, o ∈ page -> exists k, orders w !! k = Some o)
    /\ ((length page <= default 10%nat (dto_limit dto))%nat
        \/ dto_limit dto = Some 0%nat).
Proof.
  eexists. split; [apply findAll_runs|]. split.
  - intros o Ho. apply elem_of_stored_orders.
    exact (query_window_subseteq _ _ _ _ Ho).
  - destruct (dto_limit dto) as [[|l]|] eqn:Hl; simpl.
    + right. reflexivity.
    + left. apply query_window_length. discriminate.
    + left. apply query_window_length. discriminate.
Qed.

(** X12.  Two consecutive pages of the same size make up the page of twice
    the size that starts at the same offset. *)
Theorem findAll_pages_concatenate (limit offset : nat) (page : option nat)
    (w : World) (first second : list Order) :
  limit ≠ 0%nat ->
  findAll (mkPaginationDto (Some limit) (Some offset) page) w = (w, Fulfilled first) ->
  findAll (mkPaginationDto (Some limit) (Some (offset + limit)%nat) page) w
  = (w, Fulfilled second) ->
  findAll (mkPaginationDto (Some (limit + limit)%nat) (Some offset) page) w
  = (w, Fulfilled (first ++ second)%list).
Proof.
  intros Hl H1 H2. rewrite findAll_runs in H1, H2. simpl in H1, H2.
  injection H1 as H1. injection H2 as H2. subst first second.
  rewrite findAll_runs. simpl. rewrite (query_window_next _ _ _ Hl). reflexivity.
Qed.

(** X13.  An offset at or beyond the number of stored orders is no error:
    the page is empty. *)
Theorem findAll_past_the_end (limit : option nat) (offset : nat) (page : option nat)
    (w : World) :
  (size (orders w) <= offset)%nat ->
  findAll (mkPaginationDto limit (Some offset) page) w = (w, Fulfilled []).
Proof.
  intros H. rewrite findAll_runs. simpl.
  rewrite query_window_past_end; [reflexivity|].
  rewrite length_stored_orders. exact H.
Qed.

(** X14.  Without limit and offset, [findAll] lists every stored order as
    long as there are at most ten of them. *)
Theorem findAll_default_lists_all (page : option nat) (w : World) :
  (size (orders w) <= 10)%nat ->
  exists listed,
    findAll (mkPaginationDto None None page) w = (w, Fulfilled listed)
    /\ length listed = size (orders w)
    /\ forall k o, orders w !! k = Some o -> o ∈ listed.
Proof.
  intros H. exists (stored_orders w). rewrite findAll_runs. simpl.
  rewrite query_window_all by (rewrite length_stored_orders; exact H).
  split; [reflexivity|]. split; [apply length_stored_orders|].
  intros k o Hk. apply elem_of_stored_orders. exists k. exact Hk.
Qed.

End OrderListing.

(** ** The public id of an image *)

Section Splitting.

Lemma split_nonempty (sep : ascii) (s : string) : split sep s ≠ [].
Proof.
  destruct s as [|c s]; simpl; [discriminate|].
  destruct (Ascii.eqb c sep); [discriminate|].
  destruct (split sep s); discriminate.
Qed.

(** No piece contains the separator. *)
Lemma split_pieces_without_sep (sep : ascii) (s : string) :
  Forall (fun piece => occurs sep piece = false) (split sep s).
Proof.
  induction s as [|c s IH]; simpl.
  - constructor; [reflexivity | constructor].
  - destruct (Ascii.eqb c sep) eqn:Hc.
    + constructor; [reflexivity | exact IH].
    + destruct (split sep s) as [|piece pieces].
      * constructor; [simpl; rewrite Hc; reflexivity | constructor].
      * inversion IH as [|? ? Hp Hps]; subst.
        constructor; [simpl; rewrite Hc; exact Hp | exact Hps].
Qed.

(** A character absent from the string is absent from every piece. *)
Lemma split_pieces_keep_absent (c sep : ascii) (s : string) :
  occurs c s = false ->
  Forall (fun piece => occurs c piece = false) (split sep s).
Proof.
  induction s as [|d s IH]; simpl; intros H.
  - constructor; [reflexivity | constructor].
  - apply orb_false_iff in H as [Hd Hs]. specialize (IH Hs).
    destruct (Ascii.eqb d sep).
    + constructor; [reflexivity | exact IH].
    + destruct (split sep s) as [|piece pieces].
      * constructor; [simpl; rewrite Hd; reflexivity | constructor].
      * inversion IH as [|? ? Hp Hps]; subst.
        constructor; [simpl; rewrite Hd; exact Hp | exact Hps].
Qed.

(** A string without the separator is its own single piece. *)
Lemma split_without_sep (sep : ascii) (s : string) :
  occurs sep s = false -> split sep s = [s].
Proof.
  induction s as [|c s IH]; simpl; intros H; [reflexivity|].
  apply orb_false_iff in H as [Hc Hs]. rewrite Hc, (IH Hs). reflexivity.
Qed.

(** Splitting distributes over a separator in the middle. *)
Lemma split_at_sep (sep : ascii) (a b : string) :
  split sep (a ++ String sep b) = (split sep a ++ split sep b)%list.
Proof.
  induction a as [|c a IH]; simpl.
  - rewrite Ascii.eqb_refl. reflexivity.
  - rewrite IH. destruct (Ascii.eqb c sep); [reflexivity|].
    pose proof (split_nonempty sep a) as Hne.
    destruct (split sep a) as [|piece pieces]; [contradiction | reflexivity].
Qed.

Lemma occurs_append (c : ascii) (a b : string) :
  occurs c (a ++ b) = occurs c a || occurs c b.
Proof.
  induction a as [|d a IH]; simpl; [reflexivity|].
  rewrite IH. apply orb_assoc.
Qed.

Lemma publicId_defined (image : string) :
  exists publicId, publicId_of image = Some publicId.
Proof.
  unfold publicId_of.
  destruct (last (split "/" image)) as [piece|] eqn:Hlast.
  2:{ apply last_None in Hlast. destruct (split_nonempty _ _ Hlast). }
  destruct (head (split "." piece)) as [p|] eqn:Hhead.
  2:{ apply head_None in Hhead. destruct (split_nonempty _ _ Hhead). }
  exists p. reflexivity.
Qed.

(** X15.  The public id is always defined - [pop()] and [[0]] never hit an
    empty array - and contains neither a slash nor a dot. *)
Theorem publicId_of_defined_and_clean (image : string) :
  exists publicId,
    publicId_of image = Some publicId
    /\ occurs "/" publicId = false
    /\ occurs "." publicId = false.
Proof.
  unfold publicId_of.
  destruct (last (split "/" image)) as [piece|] eqn:Hlast.
  2:{ apply last_None in Hlast. destruct (split_nonempty _ _ Hlast). }
  destruct (head (split "." piece)) as [p|] eqn:Hhead.
  2:{ apply head_None in Hhead. destruct (split_nonempty _ _ Hhead). }
  exists p. split; [reflexivity|].
  apply last_Some_elem_of in Hlast. apply head_Some_elem_of in Hhead.
  pose proof (split_pieces_without_sep "/" image) as Hslash.
  rewrite Forall_forall in Hslash. specialize (Hslash _ Hlast). split.
  - pose proof (split_pieces_keep_absent "/" "." piece Hslash) as Hkeep.
    rewrite Forall_forall in Hkeep. exact (Hkeep _ Hhead).
  - pose proof (split_pieces_without_sep "." piece) as Hdot.
    rewrite Forall_forall in Hdot. exact (Hdot _ Hhead).
Qed.

(** X16.  For an image address that ends in [/name.ext], the public id is
    [name], whatever comes before the last slash. *)
Theorem publicId_of_address (dir name ext : string) :
  occurs "/" name = false ->
  occurs "." name = false ->
  occurs "/" ext = false ->
  publicId_of (dir ++ "/" ++ name ++ "." ++ ext) = Some name.
Proof.
  intros Hn1 Hn2 He. unfold publicId_of.
  change (dir ++ "/" ++ name ++ "." ++ ext)
    with (dir ++ String "/" (name ++ String "." ext)).
  rewrite split_at_sep, last_app.
  assert (Hfile : occurs "/" (name ++ String "." ext) = false).
  { rewrite occurs_append. simpl. rewrite Hn1, He. reflexivity. }
  rewrite (split_without_sep _ _ Hfile). simpl.
  rewrite split_at_sep, (split_without_sep _ _ Hn2). reflexivity.
Qed.

End Splitting.

Lemma findAll_pages_concatenate_witness :
  findAll (mkPaginationDto (Some 1%nat) (Some 0%nat) None) Sample.world
  = (Sample.world, Fulfilled [Sample.first_order])
  /\ findAll (mkPaginationDto (Some 2%nat) (Some 0%nat) None) Sample.world
     = (Sample.world, Fulfilled ([Sample.first_order] ++ [])%list).
Proof.
  split; [vm_compute; reflexivity|].
  apply (findAll_pages_concatenate 1 0 None Sample.world [Sample.first_order] []);
    [discriminate | vm_compute; reflexivity | vm_compute; reflexivity].
Defined.

Lemma findAll_past_the_end_witness :
  (size (orders Sample.world) <= 1)%nat
  /\ findAll (mkPaginationDto (Some 5%nat) (Some 1%nat) None) Sample.world
     = (Sample.world, Fulfilled []).
Proof.
  split; [vm_compute; lia|].
  apply (findAll_past_the_end (Some 5%nat) 1 None Sample.world). vm_compute. lia.
Defined.

Lemma findAll_default_lists_all_witness :
  exists listed,
    findAll (mkPaginationDto None None None) Sample.world
    = (Sample.world, Fulfilled listed)
    /\ length listed = size (orders Sample.world).
Proof.
  destruct (findAll_default_lists_all None Sample.world) as (listed & Hf & Hl & _);
    [vm_compute; lia|].
  exists listed. split; assumption.
Defined.

Lemma publicId_of_address_witness :
  publicId_of ("https://img.host/demo/upload/v1" ++ "/" ++ "mug" ++ "." ++ "png")
  = Some "mug".
Proof.
  apply (publicId_of_address "https://img.host/demo/upload/v1" "mug" "png");
    reflexivity.
Defined.

(** ** The offers service, case by case *)

Ltac run_offers :=
  unfold Offers.create, Offers.findAll, Offers.findOne, Offers.update,
    Offers.remove, Offers.addPrice, Offers.async, Offers.bind, Offers.await,
    Offers.call, Offers.try_catch, Offers.return_promise, Offers.return_value,
    Offers.ret, Offers.throw, Offers.offerModel_findById,
    Offers.offerModel_findByIdAndDelete, Offers.offerModel_findByIdAndUpdate,
    Offers.offerModel_create, Offers.document_save,
    Offers.cloudinary_uploadFile, Offers.cloudinary_deleteFile; simpl.

Section OffersCases.

Context {env : Offers.Collaborators}.

Lemma offers_findOne_missing (id : string) (isClient : bool) (c : Offers.Catalog) :
  Offers.offers c !! id = None ->
  Offers.findOne id isClient c =
    (c, Rejected (NotFoundException ("Offer with id: '" ++ id ++ "' not found"))).
Proof. intros H. run_offers. rewrite H. reflexivity. Qed.

Lemma offers_findOne_inactive (id : string) (c : Offers.Catalog) (o : Offers.Offer) :
  Offers.offers c !! id = Some o ->
  Offers.isActive o = false ->
  Offers.findOne id true c =
    (c, Rejected (BadRequestException ("Offer with id: '" ++ id ++ "' is not active"))).
Proof. intros H Ha. run_offers. rewrite H. simpl. rewrite Ha. reflexivity. Qed.

Lemma offers_findOne_served (id : string) (isClient : bool) (c : Offers.Catalog)
    (o : Offers.Offer) :
  Offers.offers c !! id = Some o ->
  isClient && negb (Offers.isActive o) = false ->
  Offers.findOne id isClient c = (c, Fulfilled o).
Proof. intros H Ha. run_offers. rewrite H. simpl. rewrite Ha. reflexivity. Qed.

(** The run of [remove] once [findOne] has answered with the offer. *)
Lemma offers_remove_after_findOne (id : string) (c : Offers.Catalog) (o : Offers.Offer) :
  Offers.offers c !! id = Some o ->
  Offers.isActive o = true ->
  Offers.remove id c =
    if negb (String.eqb (Offers.image o) "No_image") then
      match publicId_of (Offers.image o) with
      | Some publicId =>
          let c1 := Offers.set_delete_calls c
                      (Offers.delete_calls c ++ [publicId]) in
          match Offers.delete_fault (Offers.delete_calls c) publicId with
          | Some e => (c1, Rejected e)
          | None =>
              (Offers.set_offers c1 (delete id (Offers.offers c)),
               Fulfilled ("Offer with the id: '" ++ id ++ "' was removed"))
          end
      | None => (c, Rejected (TypeError "Cannot read properties of undefined"))
      end
    else
      (Offers.set_offers c (delete id (Offers.offers c)),
       Fulfilled ("Offer with the id: '" ++ id ++ "' was removed")).
Proof.
  intros H Ha. unfold Offers.remove. run_offers. rewrite H. simpl.
  rewrite Ha. simpl.
  destruct (String.eqb (Offers.image o) "No_image"); simpl.
  - rewrite H. reflexivity.
  - destruct (publicId_of (Offers.image o)) as [pid|]; [|reflexivity].
    destruct (Offers.delete_fault (Offers.delete_calls c) pid); simpl;
      [reflexivity|]. rewrite H. reflexivity.
Qed.

Lemma offers_addPrice_runs (id : string) (price : JsValue) (c : Offers.Catalog)
    (o : Offers.Offer) :
  Offers.offers c !! id = Some o ->
  Offers.offer_save_fault (Offers.offers c) (Offers.push_price o price) = None ->
  Offers.addPrice id price c =
    (Offers.set_offers c (<[id := Offers.push_price o price]> (Offers.offers c)),
     Fulfilled (Offers.push_price o price)).
Proof. intros H Hs. run_offers. rewrite H. simpl. rewrite Hs. reflexivity. Qed.

Lemma offers_findAll_runs (dto : PaginationDto) (isClient : bool) (c : Offers.Catalog) :
  Offers.findAll dto isClient c =
    let limit := default 10%nat (dto_limit dto) in
    let page := default 1%nat (dto_page dto) in
    let skip := (Z.of_nat page - 1) * Z.of_nat limit in
    if Z.ltb skip 0 then (c, Rejected (Offers.negative_skip_error skip))
    else
      (c, Fulfilled
            {| Offers.data :=
                 query_window limit (Z.to_nat skip) (Offers.matching isClient c);
               Offers.totalPages :=
                 Math_ceil_div (length (Offers.matching isClient c)) limit |}).
Proof.
  run_offers. unfold Offers.offerModel_find, Offers.offerModel_countDocuments.
  destruct (Z.ltb _ 0); reflexivity.
Qed.

Lemma elem_of_matching (active_only : bool) (o : Offers.Offer) (c : Offers.Catalog) :
  o ∈ Offers.matching active_only c ->
  (exists k, Offers.offers c !! k = Some o)
  /\ (active_only = true -> Offers.isActive o = true).
Proof.
  unfold Offers.matching, Offers.stored_offers. intros H.
  assert (Hin : o ∈ (map_to_list (Offers.offers c)).*2 ->
                exists k, Offers.offers c !! k = Some o).
  { rewrite list_elem_of_fmap. intros ([k o'] & -> & Hk). exists k.
    apply elem_of_map_to_list. exact Hk. }
  destruct active_only.
  - apply list_elem_of_filter in H as [Ha Ho]. split; [apply Hin, Ho | auto].
  - split; [apply Hin, H | discriminate].
Qed.

Lemma Math_ceil_div_bounds (total limit : nat) :
  limit ≠ 0%nat ->
  exists n : nat,
    Math_ceil_div total limit = Finite (Z.of_nat n)
    /\ (total <= n * limit)%nat /\ (n * limit < total + limit)%nat.
Proof.
  intros Hl. unfold Math_ceil_div.
  destruct (Nat.eqb_spec limit 0) as [E|_]; [contradiction|].
  pose proof (Nat.div_mod_eq total limit) as Hdm.
  pose proof (Nat.mod_upper_bound total limit Hl) as Hm.
  destruct (Nat.eqb_spec (total mod limit) 0) as [E|E].
  - exists (total / limit)%nat. split; [reflexivity|]. lia.
  - exists (S (total / limit)). split; [f_equal; lia|]. lia.
Qed.

(** The translation touches nothing but the log. *)
Lemma offers_handelDBException_rejects (A : Type) (e : Thrown) (c : Offers.Catalog) :
  exists c' t,
    Offers.async (@Offers.handelDBException env (Promise A) e) c = (c', Rejected t)
    /\ Offers.offers c' = Offers.offers c
    /\ Offers.upload_calls c' = Offers.upload_calls c.
Proof.
  unfold Offers.async, Offers.handelDBException.
  destruct (strict_eq_num (code e) 11000); simpl; eauto 6.
Qed.

End OffersCases.

(** ** Properties of the offers service *)

Section OffersProperties.

Context {env : Offers.Collaborators}.

Lemma offers_addPrice_fulfilled_inv (id : string) (price : JsValue)
    (c c' : Offers.Catalog) (o' : Offers.Offer) :
  Offers.addPrice id price c = (c', Fulfilled o') ->
  exists o,
    Offers.offers c !! id = Some o
    /\ o' = Offers.push_price o price
    /\ c' = Offers.set_offers c (<[id := o']> (Offers.offers c)).
Proof.
  intros H. destruct (Offers.offers c !! id) as [o|] eqn:Ho.
  2:{ revert H. run_offers. rewrite Ho. discriminate. }
  destruct (Offers.offer_save_fault (Offers.offers c) (Offers.push_price o price))
    as [e|] eqn:Hs.
  { revert H. run_offers. rewrite Ho. simpl. rewrite Hs. discriminate. }
  rewrite (offers_addPrice_runs _ _ _ _ Ho Hs) in H. injection H as Hc Ho'.
  exists o. subst. auto.
Qed.

(** X17.  A client is never served an inactive offer: when [findOne] fulfils
    for a client, the offer is the one stored under the id and it is active;
    the catalog is left as it was. *)
Theorem offers_findOne_client_only_active (id : string) (c c' : Offers.Catalog)
    (o : Offers.Offer) :
  Offers.findOne id true c = (c', Fulfilled o) ->
  c' = c /\ Offers.offers c !! id = Some o /\ Offers.isActive o = true.
Proof.
  intros H. destruct (Offers.offers c !! id) as [o0|] eqn:Ho.
  2:{ rewrite (offers_findOne_missing _ _ _ Ho) in H. discriminate. }
  destruct (Offers.isActive o0) eqn:Ha.
  2:{ rewrite (offers_findOne_inactive _ _ _ Ho Ha) in H. discriminate. }
  rewrite (offers_findOne_served id true c o0 Ho) in H
    by (rewrite Ha; reflexivity).
  injection H as Hc Hoo. subst. auto.
Qed.

(** X18.  An inactive offer cannot be removed: [remove] looks the offer up
    the way a client does, so it is rejected with the 'is not active'
    [BadRequestException]; the offer stays stored and the image host is not
    called. *)
Theorem offers_remove_inactive_refused (id : string) (c : Offers.Catalog)
    (o : Offers.Offer) :
  Offers.offers c !! id = Some o ->
  Offers.isActive o = false ->
  Offers.remove id c =
    (c, Rejected (BadRequestException ("Offer with id: '" ++ id ++ "' is not active"))).
Proof.
  intros Ho Ha. unfold Offers.remove. run_offers. rewrite Ho. simpl.
  rewrite Ha. reflexivity.
Qed.

(** X19.  Removing an active offer while the image host accepts deletions:
    the offer is deleted and the confirmation returned; the image host is
    asked to delete the public id of the image exactly when the image is not
    'No_image'. *)
Theorem offers_remove_deletes (id : string) (c : Offers.Catalog) (o : Offers.Offer) :
  Offers.offers c !! id = Some o ->
  Offers.isActive o = true ->
  (forall publicId, Offers.delete_fault (Offers.delete_calls c) publicId = None) ->
  exists c' publicId,
    Offers.remove id c =
      (c', Fulfilled ("Offer with the id: '" ++ id ++ "' was removed"))
    /\ Offers.offers c' = delete id (Offers.offers c)
    /\ publicId_of (Offers.image o) = Some publicId
    /\ Offers.delete_calls c' =
         if String.eqb (Offers.image o) "No_image" then Offers.delete_calls c
         else (Offers.delete_calls c ++ [publicId])%list.
Proof.
  intros Ho Ha Hok. rewrite (offers_remove_after_findOne _ _ _ Ho Ha).
  destruct (publicId_defined (Offers.image o)) as (pid & Hpid).
  rewrite Hpid.
  destruct (String.eqb (Offers.image o) "No_image"); simpl.
  - eexists _, pid. repeat split; reflexivity.
  - rewrite Hok. eexists _, pid. repeat split; reflexivity.
Qed.

(** X20.  When the image host refuses the deletion, [remove] is rejected
    with the host's error as it is, and the offer stays stored. *)
Theorem offers_remove_host_failure_keeps_offer (id : string) (c : Offers.Catalog)
    (o : Offers.Offer) (publicId : string) (e : Thrown) :
  Offers.offers c !! id = Some o ->
  Offers.isActive o = true ->
  Offers.image o ≠ "No_image" ->
  publicId_of (Offers.image o) = Some publicId ->
  Offers.delete_fault (Offers.delete_calls c) publicId = Some e ->
  snd (Offers.remove id c) = Rejected e
  /\ Offers.offers (fst (Offers.remove id c)) !! id = Some o
  /\ Offers.logged (fst (Offers.remove id c)) = Offers.logged c.
Proof.
  intros Ho Ha Hi Hpid Hf. rewrite (offers_remove_after_findOne _ _ _ Ho Ha).
  destruct (String.eqb_spec (Offers.image o) "No_image") as [E|_];
    [contradiction|]. simpl. rewrite Hpid, Hf. simpl. auto.
Qed.

(** X21.  When [addPrice] fulfils, the answer is the stored offer with the
    price appended at the end of its prices and nothing else changed; it is
    stored under the same id and the other offers are untouched.  The offer
    need not be active. *)
Theorem offers_addPrice_appends (id : string) (price : JsValue)
    (c c' : Offers.Catalog) (o' : Offers.Offer) :
  Offers.addPrice id price c = (c', Fulfilled o') ->
  exists o,
    Offers.offers c !! id = Some o
    /\ Offers.prices o' = (Offers.prices o ++ [price])%list
    /\ Offers.image o' = Offers.image o
    /\ Offers.isActive o' = Offers.isActive o
    /\ Offers.offers c' !! id = Some o'
    /\ forall j, j ≠ id -> Offers.offers c' !! j = Offers.offers c !! j.
Proof.
  intros H. destruct (offers_addPrice_fulfilled_inv _ _ _ _ _ H)
    as (o & Ho & Ho' & Hc).
  exists o. split; [exact Ho|]. rewrite Hc, Ho'. simpl.
  repeat split; try reflexivity.
  - apply lookup_insert_eq.
  - intros j Hj. apply lookup_insert_ne. congruence.
Qed.

(** X22.  Prices accumulate in call order: after two successful [addPrice]
    calls on the same offer its prices are the old ones followed by the
    first and then the second price. *)
Theorem offers_addPrice_twice (id : string) (p1 p2 : JsValue)
    (c c1 c2 : Offers.Catalog) (o o1 o2 : Offers.Offer) :
  Offers.offers c !! id = Some o ->
  Offers.addPrice id p1 c = (c1, Fulfilled o1) ->
  Offers.addPrice id p2 c1 = (c2, Fulfilled o2) ->
  Offers.prices o2 = (Offers.prices o ++ [p1; p2])%list
  /\ Offers.offers c2 !! id = Some o2.
Proof.
  intros Ho H1 H2.
  destruct (offers_addPrice_fulfilled_inv _ _ _ _ _ H1) as (a & Ha & Ho1 & Hc1).
  destruct (offers_addPrice_fulfilled_inv _ _ _ _ _ H2) as (b & Hb & Ho2 & Hc2).
  assert (a = o) by congruence. subst a.
  assert (b = o1).
  { rewrite Hc1 in Hb. simpl in Hb. rewrite lookup_insert_eq in Hb. congruence. }
  subst b. split.
  - rewrite Ho2, Ho1. simpl. rewrite <- app_assoc. reflexivity.
  - rewrite Hc2. simpl. apply lookup_insert_eq.
Qed.

(** X23.  Every offer on a page answered by [findAll] is a stored offer, and
    for a client every one of them is active. *)
Theorem offers_findAll_serves_stored (dto : PaginationDto) (isClient : bool)
    (c c' : Offers.Catalog) (page : Offers.Page) :
  Offers.findAll dto isClient c = (c', Fulfilled page) ->
  c' = c
  /\ forall o, o ∈ Offers.data page ->
       (exists k, Offers.offers c !! k = Some o)
       /\ (isClient = true -> Offers.isActive o = true).
Proof.
  intros H. rewrite offers_findAll_runs in H. simpl in H.
  destruct (Z.ltb _ 0); [discriminate|]. injection H as Hc Hp. subst c' page.
  split; [reflexivity|]. simpl. intros o Ho.
  apply (elem_of_matching isClient). exact (query_window_subseteq _ _ _ _ Ho).
Qed.

(** X24.  For a positive limit and a page number of at least 1 (10 and 1
    when absent), [findAll] fulfils with at most [limit] offers and a
    [totalPages] that is the least number of pages holding all matching
    offers; the page is empty exactly when its number exceeds
    [totalPages]. *)
Theorem offers_findAll_pages (dto : PaginationDto) (isClient : bool)
    (c : Offers.Catalog) :
  default 10%nat (dto_limit dto) ≠ 0%nat ->
  default 1%nat (dto_page dto) ≠ 0%nat ->
  exists (listed : list Offers.Offer) (n : nat),
    Offers.findAll dto isClient c =
      (c, Fulfilled {| Offers.data := listed;
                       Offers.totalPages := Finite (Z.of_nat n) |})
    /\ (length listed <= default 10 (dto_limit dto))%nat
    /\ (length (Offers.matching isClient c) <= n * default 10 (dto_limit dto))%nat
    /\ (n * default 10 (dto_limit dto)
        < length (Offers.matching isClient c) + default 10 (dto_limit dto))%nat
    /\ (listed = [] <-> (n < default 1 (dto_page dto))%nat).
Proof.
  intros Hl Hp. rewrite offers_findAll_runs. simpl.
  set (limit := default 10%nat (dto_limit dto)) in *.
  set (page := default 1%nat (dto_page dto)) in *.
  set (docs := Offers.matching isClient c).
  destruct (Z.ltb_spec ((Z.of_nat page - 1) * Z.of_nat limit) 0) as [Hneg|_];
    [nia|].
  destruct (Math_ceil_div_bounds (length docs) limit Hl) as (n & Hn & Hlo & Hhi).
  eexists _, n. rewrite Hn. split; [reflexivity|].
  assert (Hskip : Z.to_nat ((Z.of_nat page - 1) * Z.of_nat limit)
                  = ((page - 1) * limit)%nat) by nia.
  rewrite Hskip.
  split; [apply query_window_length; exact Hl|].
  split; [exact Hlo|]. split; [exact Hhi|].
  unfold query_window. destruct (Nat.eqb_spec limit 0) as [E|_]; [contradiction|].
  split.
  - intros Hnil. apply take_nil_inv in Hnil as [E|Hd]; [contradiction|].
    apply drop_nil_inv in Hd. nia.
  - intros Hlt. rewrite drop_ge by nia. apply take_nil.
Qed.

(** X25.  With a limit of 0 the page holds every matching offer and
    [totalPages] is not an integer: it is [Infinity] when there is an offer
    to list and [NaN] when there is none. *)
Theorem offers_findAll_limit_zero (offset page : option nat) (isClient : bool)
    (c : Offers.Catalog) :
  Offers.findAll (mkPaginationDto (Some 0%nat) offset page) isClient c =
    (c, Fulfilled
          {| Offers.data := Offers.matching isClient c;
             Offers.totalPages :=
               match Offers.matching isClient c with
               | [] => NaN
               | _ :: _ => Infinity
               end |}).
Proof.
  rewrite offers_findAll_runs. simpl. rewrite Z.mul_0_r. simpl.
  unfold query_window, Math_ceil_div. simpl.
  destruct (Offers.matching isClient c); reflexivity.
Qed.


(** X27.  [create] uploads exactly when it is given a file, and then once:
    whatever the outcome, the uploads recorded afterwards are the earlier
    ones followed by that file. *)
Theorem offers_create_uploads_only_files (dto : Offers.CreateOfferDto)
    (file : option Offers.File) (c : Offers.Catalog) :
  Offers.upload_calls (fst (Offers.create dto file c)) =
    (Offers.upload_calls c
     ++ match file with Some f => [f] | None => [] end)%list.
Proof.
  destruct file as [f|].
  - destruct (Offers.upload_result (Offers.upload_calls c) f) as [u|e] eqn:Hu.
    + run_offers. rewrite Hu. simpl.
      destruct (Offers.offer_insert_fault (Offers.offers c) (Offers.set_image dto u));
        reflexivity.
    + run_offers. rewrite Hu. simpl. unfold Offers.handelDBException.
      destruct (strict_eq_num (code e) 11000); reflexivity.
  - run_offers. rewrite app_nil_r.
    destruct (Offers.offer_insert_fault (Offers.offers c) dto); reflexivity.
Qed.

(** X28.  A failed upload (with a code other than 11000) is logged and
    surfaces as the generic internal error; no insert is attempted, so the
    offers are as before. *)
Theorem offers_create_upload_failure (dto : Offers.CreateOfferDto)
    (file : Offers.File) (c : Offers.Catalog) (e : Thrown) :
  Offers.upload_result (Offers.upload_calls c) file = Rejected e ->
  code e ≠ JNum 11000 ->
  snd (Offers.create dto (Some file) c)
  = Rejected (InternalServerErrorException "Unexpected error, check server logs")
  /\ Offers.offers (fst (Offers.create dto (Some file) c)) = Offers.offers c
  /\ Offers.logged (fst (Offers.create dto (Some file) c))
     = (Offers.logged c ++ [e])%list.
Proof.
  intros Hu Hc. run_offers. rewrite Hu. simpl. unfold Offers.handelDBException.
  assert (Hs : strict_eq_num (code e) 11000 = false).
  { destruct (code e) as [| |n|s|fs]; try reflexivity. simpl.
    destruct (Z.eqb_spec n 11000) as [->|_]; [congruence | reflexivity]. }
  rewrite Hs. simpl. auto.
Qed.

End OffersProperties.

(** ** The further properties on the samples *)

Lemma create_then_findOne_witness :
  exists w' o,
    create (env := Sample.healthy) Sample.alice Sample.world = (w', Fulfilled o)
    /\ findOne (order_id o) w' = (w', Fulfilled o).
Proof.
  pose (o := mkOrder "0" 42 3500 "Pending" "https://pay/session/abc" "u1" ["w1"; "w2"]).
  pose (w' := fst (create (env := Sample.healthy) Sample.alice Sample.world)).
  assert (H : create (env := Sample.healthy) Sample.alice Sample.world
              = (w', Fulfilled o)) by (vm_compute; reflexivity).
  exists w', o. split; [exact H|].
  exact (create_then_findOne (env := Sample.healthy) Sample.alice Sample.world w' o H).
Defined.

Lemma create_keeps_stored_orders_witness :
  orders Sample.world !! "o1" = Some Sample.first_order
  /\ orders (fst (create (env := Sample.healthy) Sample.alice Sample.world)) !! "o1"
     = Some Sample.first_order.
Proof.
  split; [vm_compute; reflexivity|].
  apply (create_keeps_stored_orders (env := Sample.healthy) Sample.alice
           Sample.world "o1" Sample.first_order).
  vm_compute; reflexivity.
Defined.

Lemma create_rejected_stores_nothing_witness :
  orders (fst (create (env := Sample.conflicting) Sample.alice Sample.world))
  = orders Sample.world.
Proof.
  apply (create_rejected_stores_nothing (env := Sample.conflicting) Sample.alice
           Sample.world
           (Sample.duplicate_key
              (order_literal Sample.world Sample.alice Sample.alice
                 (mkSession 3500 "https://pay/session/abc")))).
  vm_compute; reflexivity.
Defined.

Lemma create_logs_only_gateway_failures_witness :
  exists e,
    logged (fst (create (env := Sample.gateway_failing) Sample.alice Sample.world))
    = (logged Sample.world ++ [e])%list
    /\ code e ≠ JNum 11000.
Proof.
  destruct (create_logs_only_gateway_failures (env := Sample.gateway_failing)
              Sample.alice Sample.world)
    as (doc & e & _ & _ & Hc & Hl & _); [vm_compute; discriminate|].
  exists e. split; assumption.
Defined.

Lemma update_then_findOne_witness :
  orders Sample.world !! "o1" = Some Sample.first_order
  /\ snd (findOne "o1" (fst (update "o1" Sample.mark_pending Sample.world)))
     = Fulfilled (apply_patch Sample.mark_pending Sample.first_order).
Proof.
  split; [vm_compute; reflexivity|].
  rewrite (update_then_findOne "o1" Sample.mark_pending Sample.world
             Sample.first_order); [reflexivity | vm_compute; reflexivity].
Defined.

Lemma update_remove_never_create_witness :
  orders Sample.world !! "o9" = None
  /\ orders (fst (update "o1" Sample.mark_pending Sample.world)) !! "o9" = None
  /\ orders (fst (remove "o1" Sample.world)) !! "o9" = None.
Proof.
  split; [vm_compute; reflexivity|].
  apply (update_remove_never_create "o1" "o9" Sample.mark_pending Sample.world).
  vm_compute; reflexivity.
Defined.

Lemma offers_findOne_client_only_active_witness :
  Offers.findOne "f1" true OffersSample.catalog
  = (OffersSample.catalog, Fulfilled OffersSample.mug)
  /\ Offers.isActive OffersSample.mug = true.
Proof.
  split; [vm_compute; reflexivity|].
  apply (offers_findOne_client_only_active "f1" OffersSample.catalog
           OffersSample.catalog OffersSample.mug).
  vm_compute; reflexivity.
Defined.

Lemma offers_remove_inactive_refused_witness :
  Offers.offers OffersSample.catalog !! "f2" = Some OffersSample.retired
  /\ Offers.remove (env := OffersSample.services) "f2" OffersSample.catalog
     = (OffersSample.catalog,
        Rejected (BadRequestException "Offer with id: 'f2' is not active")).
Proof.
  split; [vm_compute; reflexivity|].
  apply (offers_remove_inactive_refused (env := OffersSample.services) "f2"
           OffersSample.catalog OffersSample.retired);
    [vm_compute; reflexivity | reflexivity].
Defined.

Lemma offers_remove_deletes_witness :
  exists c' publicId,
    Offers.remove (env := OffersSample.services) "f1" OffersSample.catalog
    = (c', Fulfilled "Offer with the id: 'f1' was removed")
    /\ Offers.offers c' = delete "f1" (Offers.offers OffersSample.catalog)
    /\ publicId_of (Offers.image OffersSample.mug) = Some publicId.
Proof.
  destruct (offers_remove_deletes (env := OffersSample.services) "f1"
              OffersSample.catalog OffersSample.mug)
    as (c' & pid & Hr & Ho & Hp & _);
    [vm_compute; reflexivity | reflexivity | intros pid; reflexivity |].
  exists c', pid. repeat split; assumption.
Defined.

Lemma offers_remove_host_failure_keeps_offer_witness :
  snd (Offers.remove (env := OffersSample.host_down) "f1" OffersSample.catalog)
  = Rejected OffersSample.host_error
  /\ Offers.offers
       (fst (Offers.remove (env := OffersSample.host_down) "f1" OffersSample.catalog))
     !! "f1" = Some OffersSample.mug.
Proof.
  destruct (offers_remove_host_failure_keeps_offer (env := OffersSample.host_down)
              "f1" OffersSample.catalog OffersSample.mug "mug"
              OffersSample.host_error)
    as (Hr & Ho & _);
    [vm_compute; reflexivity | reflexivity | discriminate
    | vm_compute; reflexivity | reflexivity |].
  split; assumption.
Defined.

Lemma offers_addPrice_appends_witness :
  exists c' o',
    Offers.addPrice (env := OffersSample.services) "f2" (JNum 5) OffersSample.catalog
    = (c', Fulfilled o')
    /\ Offers.prices o' = [JNum 900; JNum 5].
Proof.
  pose (o' := Offers.push_price OffersSample.retired (JNum 5)).
  pose (c' := fst (Offers.addPrice (env := OffersSample.services) "f2" (JNum 5)
                     OffersSample.catalog)).
  assert (H : Offers.addPrice (env := OffersSample.services) "f2" (JNum 5)
                OffersSample.catalog = (c', Fulfilled o'))
    by (vm_compute; reflexivity).
  destruct (offers_addPrice_appends (env := OffersSample.services) "f2" (JNum 5)
              OffersSample.catalog c' o' H) as (o & _ & _).
  exists c', o'. split; [exact H | reflexivity].
Defined.

Lemma offers_addPrice_twice_witness :
  exists c2 o2,
    Offers.addPrice (env := OffersSample.services) "f1" (JNum 7)
      (fst (Offers.addPrice (env := OffersSample.services) "f1" (JNum 5)
              OffersSample.catalog))
    = (c2, Fulfilled o2)
    /\ Offers.prices o2 = [JNum 5; JNum 7].
Proof.
  pose (c1 := fst (Offers.addPrice (env := OffersSample.services) "f1" (JNum 5)
                     OffersSample.catalog)).
  pose (c2 := fst (Offers.addPrice (env := OffersSample.services) "f1" (JNum 7) c1)).
  pose (o1 := Offers.push_price OffersSample.mug (JNum 5)).
  pose (o2 := Offers.push_price o1 (JNum 7)).
  assert (H2 : Offers.addPrice (env := OffersSample.services) "f1" (JNum 7) c1
               = (c2, Fulfilled o2)) by (vm_compute; reflexivity).
  destruct (offers_addPrice_twice (env := OffersSample.services) "f1" (JNum 5)
              (JNum 7) OffersSample.catalog c1 c2 OffersSample.mug o1 o2)
    as (Hp & _);
    [vm_compute; reflexivity | vm_compute; reflexivity | exact H2 |].
  exists c2, o2. split; [exact H2 | exact Hp].
Defined.

Lemma offers_findAll_serves_stored_witness :
  exists page,
    Offers.findAll (env := OffersSample.services) (mkPaginationDto None None None)
      true OffersSample.catalog = (OffersSample.catalog, Fulfilled page)
    /\ forall o, o ∈ Offers.data page -> Offers.isActive o = true.
Proof.
  pose (page := Offers.mkPage [OffersSample.plain; OffersSample.mug] (Finite 1)).
  assert (H : Offers.findAll (env := OffersSample.services)
                (mkPaginationDto None None None) true OffersSample.catalog
              = (OffersSample.catalog, Fulfilled page))
    by (vm_compute; reflexivity).
  destruct (offers_findAll_serves_stored (env := OffersSample.services) _ _ _ _ _ H)
    as (_ & Hall).
  exists page. split; [exact H|]. intros o Ho.
  apply (Hall o Ho). reflexivity.
Defined.

Lemma offers_findAll_pages_witness :
  exists listed n,
    Offers.findAll (env := OffersSample.services)
      (mkPaginationDto (Some 1%nat) None (Some 2%nat)) true OffersSample.catalog
    = (OffersSample.catalog,
       Fulfilled {| Offers.data := listed;
                    Offers.totalPages := Finite (Z.of_nat n) |})
    /\ (length listed <= 1)%nat.
Proof.
  destruct (offers_findAll_pages (env := OffersSample.services)
              (mkPaginationDto (Some 1%nat) None (Some 2%nat)) true
              OffersSample.catalog)
    as (listed & n & Hf & Hl & _); [discriminate | discriminate |].
  exists listed, n. split; assumption.
Defined.


Lemma offers_create_upload_failure_witness :
  snd (Offers.create (env := OffersSample.host_down) OffersSample.blank
         (Some "a.png") OffersSample.catalog)
  = Rejected (InternalServerErrorException "Unexpected error, check server logs")
  /\ Offers.offers (fst (Offers.create (env := OffersSample.host_down)
                           OffersSample.blank (Some "a.png") OffersSample.catalog))
     = Offers.offers OffersSample.catalog.
Proof.
  destruct (offers_create_upload_failure (env := OffersSample.host_down)
              OffersSample.blank "a.png" OffersSample.catalog
              OffersSample.host_error) as (Hr & Ho & _);
    [reflexivity | discriminate |].
  split; assumption.
Defined.
